(** * Project_1_Pipeline: the ActSeek orchestration scripts

    A shallow embedding of [02_ActSeek_process_pipeline.py] and
    [seed_selector.py].  Both scripts are straight-line programs over
    the file system, the AlphaFold HTTP server and one external tool, so
    each numbered STEP of the source becomes one function over an
    explicit [world]; [sys.exit] and uncaught exceptions are the two
    abnormal outcomes of a script.

    Text is modelled over 8-bit code points ([string] of [ascii]), which
    covers every character the scripts themselves test for. *)

From Stdlib Require Import ZArith NArith Ascii Floats.
From stdpp Require Import gmap strings list sorting.

Local Open Scope Z_scope.

(** ** Python text primitives *)

Module Py.

Definition TAB : ascii := "009"%char.
Definition LF : ascii := "010"%char.
Definition CR : ascii := "013"%char.

(** [str.isspace] on one character, for code points below 256:
    U+0009..U+000D, U+001C..U+0020, U+0085 and U+00A0. *)
Definition isspace (c : ascii) : bool :=
  let n := N_of_ascii c in
  ((9 <=? n) && (n <=? 13) || (28 <=? n) && (n <=? 32)
   || (n =? 133) || (n =? 160))%N.

Fixpoint lstrip (s : string) : string :=
  match s with
  | "" => ""
  | String c s' => if isspace c then lstrip s' else s
  end.

Fixpoint rstrip (s : string) : string :=
  match s with
  | "" => ""
  | String c s' =>
      match rstrip s' with
      | "" => if isspace c then "" else String c ""
      | r => String c r
      end
  end.

(** [s.strip()] *)
Definition strip (s : string) : string := rstrip (lstrip s).

(** [s.split(sep)] for a one-character separator: always at least one
    field, empty fields are kept. *)
Fixpoint split (sep : ascii) (s : string) : list string :=
  match s with
  | "" => [""]
  | String c s' =>
      if Ascii.eqb c sep then "" :: split sep s'
      else match split sep s' with
           | f :: fs => String c f :: fs
           | [] => [String c ""]
           end
  end.

(** Text-mode reading translates "\r\n" and a lone "\r" to "\n". *)
Fixpoint universal_newlines (s : string) : string :=
  match s with
  | "" => ""
  | String c s' =>
      if Ascii.eqb c CR then
        String LF match s' with
                  | String c2 s'' =>
                      if Ascii.eqb c2 LF then universal_newlines s''
                      else universal_newlines s'
                  | "" => ""
                  end
      else String c (universal_newlines s')
  end.

(** The lines a file iterator yields; each keeps its terminator. *)
Fixpoint keepends (s : string) : list string :=
  match s with
  | "" => []
  | String c s' =>
      if Ascii.eqb c LF then String c "" :: keepends s'
      else match keepends s' with
           | l :: ls => String c l :: ls
           | [] => [String c ""]
           end
  end.

Definition file_lines (content : string) : list string :=
  keepends (universal_newlines content).

(** [sorted(xs)] on strings: Python compares strings code point by
    code point, a proper prefix first. *)
Definition sorted (xs : list string) : list string :=
  merge_sort String.le xs.

(** [set(xs)], as one enumeration of its elements.  Python fixes no
    iteration order for a set; [sorted_enumeration_irrelevant] below
    shows that the order chosen here cannot be observed after
    [sorted]. *)
Definition set (xs : list string) : list string := remove_dups xs.

(** [os.path.join(a, b)] on POSIX. *)
Definition ends_with_slash (s : string) : bool :=
  match String.rev s with
  | String c _ => Ascii.eqb c "/"%char
  | "" => false
  end.

Definition path_join (a b : string) : string :=
  match b with
  | String "/"%char _ => b
  | _ => if (String.eqb a "" || ends_with_slash a)%bool
         then a +:+ b else a +:+ "/" +:+ b
  end.

End Py.

(** ** STEP 3 of the pipeline: accession extraction *)

Module Extract.

(** The character class [[A-Z0-9]]. *)
Definition is_upper_or_digit (c : ascii) : bool :=
  let n := N_of_ascii c in
  ((65 <=? n) && (n <=? 90) || (48 <=? n) && (n <=? 57))%N.

(** [([A-Z0-9]+)-] from the current position, [grp] being the part
    of the group consumed so far: the greedy branch first, then the
    backtracking branch that closes the group in front of a dash. *)
Fixpoint match_group (grp s : string) : option string :=
  match s with
  | "" => None
  | String c s' =>
      match (if is_upper_or_digit c
             then match_group (grp +:+ String c "") s' else None) with
      | Some g => Some g
      | None =>
          if (negb (String.eqb grp "") && Ascii.eqb c "-"%char)%bool
          then Some grp else None
      end
  end.

(** The pattern anchored at the head of [s]. *)
Definition match_here (s : string) : option string :=
  match s with
  | String "A"%char (String "F"%char (String "-"%char rest)) =>
      match_group "" rest
  | _ => None
  end.

(** [re.search(r"AF-([A-Z0-9]+)-", s)], returning [group(1)]: the
    leftmost position at which the pattern matches. *)
Fixpoint re_search (s : string) : option string :=
  match match_here s with
  | Some g => Some g
  | None => match s with
            | "" => None
            | String _ s' => re_search s'
            end
  end.

(** One iteration of the [for line in infile] loop. *)
Definition scan_line (accessions : list string) (line : string)
  : list string :=
  let parts := Py.split Py.TAB (Py.strip line) in
  if (2 <=? Z.of_nat (length parts)) then
    match re_search (parts !!! 1%nat) with
    | Some g => accessions ++ [g]
    | None => accessions
    end
  else accessions.

(** [accessions] after the loop over the hits file. *)
Definition extract_raw (content : string) : list string :=
  fold_left scan_line (Py.file_lines content) [].

(** [unique_accessions = sorted(set(accessions))] *)
Definition extract (content : string) : list string :=
  Py.sorted (Py.set (extract_raw content)).

End Extract.

(** ** JSON values and Python dictionaries *)

(** What [json.load] returns.  A dictionary keeps its insertion order,
    which [json.dump] writes back, so it is an association list. *)
#[local] Set Warnings "-register-all".

Inductive json :=
  | JNull
  | JBool (b : bool)
  | JInt (n : Z)
  | JFloat (f : float)
  | JStr (s : string)
  | JList (l : list json)
  | JDict (d : list (string * json)).

Module Dict.

(** [d.get(k)] *)
Fixpoint get (k : string) (d : list (string * json)) : option json :=
  match d with
  | [] => None
  | (k', v) :: d' => if String.eqb k k' then Some v else get k d'
  end.

(** [d[k] = v]: an existing key keeps its place, a new one is added
    at the end. *)
Fixpoint set (k : string) (v : json) (d : list (string * json))
  : list (string * json) :=
  match d with
  | [] => [(k, v)]
  | (k', v') :: d' =>
      if String.eqb k k' then (k', v) :: d' else (k', v') :: set k v d'
  end.

End Dict.

(** Truth value of a loaded JSON value in an [if]. *)
Definition truthy (v : json) : bool :=
  match v with
  | JNull => false
  | JBool b => b
  | JInt n => negb (n =? 0)
  | JFloat f => negb (PrimFloat.eqb f 0%float)
  | JStr s => negb (String.eqb s "")
  | JList l => match l with [] => false | _ => true end
  | JDict d => match d with [] => false | _ => true end
  end.

(** [if d.get(k):] with [None] for an absent key. *)
Definition get_truthy (k : string) (d : list (string * json)) : bool :=
  match Dict.get k d with
  | Some v => truthy v
  | None => false
  end.

(** ** The world the scripts run in *)

(** The outcome of [requests.get(url)]: a response, or one of the
    [RequestException]s the call itself raises (connection error,
    timeout, too many redirects). *)
Inductive response :=
  | Response (status_code : Z) (content : string)
  | RequestFailed.

(** The outcome of [subprocess.run(args, capture_output=True, text=True)]:
    the finished process, with the file system it leaves behind, or the
    [OSError] of a program that could not be started. *)
Inductive completed :=
  | Completed (returncode : Z) (stdout stderr : string)
      (files : gmap string string)
  | SpawnFailed.

(** Everything outside the scripts.  [getcwd_tail] is [os.getcwd()]
    without its leading slash; the HTTP server may answer according to
    the requests made so far; the external tool sees the files and may
    change them; [isdir runs d] tells whether [d] is a directory that
    is there without any file of the world in it, once the tool has
    been started as [runs] lists (the tool may make directories, the
    scripts make none but [pdb_output_folder]); [json_load text] is
    [json.load] on a file holding [text] ([None]
    for a [JSONDecodeError]), and the other library functions are taken
    as they are. *)
Class Platform := {
  getcwd_tail : string;
  http_get : list string -> string -> response;
  run_tool : gmap string string -> list string -> completed;
  isdir : list (list string) -> string -> bool;
  fd_open : Z -> bool;
  json_load : string -> option json;
  json_dumps : json -> string;
  json_dumps_indent4 : json -> string;
  py_str : json -> string
}.

(** Files are keyed by the path string the script uses, and hold
    regular files only; a directory that exists is writable.
    [requests] lists the URLs fetched and [runs] the command lines
    started, oldest first.  [print] calls are left out: nothing reads
    them back. *)
Record world := {
  fs : gmap string string;
  requests : list string;
  runs : list (list string)
}.

Inductive exit_message :=
  | HitsFileNotFound
  | ConfigNotFound
  | SeedNotDefined
  | SeedDownloadFailed (seed_filename : string)
  | SeedAccessionNotFound
  | SelectorDownloadFailed (seed_filename : string)
  | SelectorConfigNotFound (config_path : string).

Inductive exn :=
  | KeyError (key : string)
  | TypeError
  | AttributeError
  | OverflowError
  | JSONDecodeError
  | OSError
  | FileNotFoundError
  | ValueError.

(** How a piece of a script ends: it falls through with a value, calls
    [sys.exit], or dies of an exception nobody catches. *)
Inductive outcome (A : Type) :=
  | Done (a : A)
  | SysExit (m : exit_message)
  | Uncaught (e : exn).
Arguments Done {A} a.
Arguments SysExit {A} m.
Arguments Uncaught {A} e.

Definition script (A : Type) : Type := world -> world * outcome A.

Definition ret {A} (a : A) : script A := fun w => (w, Done a).

Definition bind {A B} (m : script A) (k : A -> script B) : script B :=
  fun w =>
    match m w with
    | (w', Done a) => k a w'
    | (w', SysExit msg) => (w', SysExit msg)
    | (w', Uncaught e) => (w', Uncaught e)
    end.

Definition sys_exit {A} (m : exit_message) : script A :=
  fun w => (w, SysExit m).

Definition raise {A} (e : exn) : script A := fun w => (w, Uncaught e).

Global Instance script_ret : MRet script := @ret.
Global Instance script_bind : MBind script :=
  fun A B k m => bind m k.

(** Expressions that may raise, without touching the world. *)
Global Instance raising_bind : MBind (sum exn) :=
  fun A B k r => match r with inl e => inl e | inr a => k a end.

Definition nl : string := String Py.LF "".

(** [os.path.exists(p)] for a path string that names a regular file
    when it names anything *)
Definition path_exists (p : string) (w : world) : bool :=
  bool_decide (is_Some (fs w !! p)).

(** [with open(p, 'w') as f: f.write(text)], where the directory of
    [p] is there: the file is created or truncated. *)
Definition write_file (p text : string) (w : world) : world :=
  {| fs := <[p := text]> (fs w); requests := requests w; runs := runs w |}.

(** [name(accession)] and the download URL *)
Definition af_filename (acc : string) : string :=
  "AF-" +:+ acc +:+ "-F1-model_v4.pdb".

Definition af_url (filename : string) : string :=
  "https://alphafold.ebi.ac.uk/files/" +:+ filename.

(** [response.raise_for_status()] raises [HTTPError] for the client
    and server error ranges, 400 to 599. *)
Definition raises_for_status (status_code : Z) : bool :=
  (400 <=? status_code) && (status_code <? 600).

(** [os.path.basename(p)] *)
Definition basename (p : string) : string :=
  List.last (Py.split "/"%char p) "".

(** [p[:p.rfind('/') + 1]] *)
Fixpoint up_to_last_slash (p : string) : string :=
  match p with
  | "" => ""
  | String c p' =>
      let head := up_to_last_slash p' in
      if Ascii.eqb c "/"%char || negb (String.eqb head "")
      then String c head else ""
  end.

(** [head.rstrip('/')] *)
Fixpoint rstrip_slashes (head : string) : string :=
  match head with
  | "" => ""
  | String c head' =>
      let t := rstrip_slashes head' in
      if Ascii.eqb c "/"%char && String.eqb t "" then "" else String c t
  end.

(** [os.path.dirname(p)]: a head made of slashes only is kept as it
    is. *)
Definition dirname (p : string) : string :=
  let head := up_to_last_slash p in
  let stripped := rstrip_slashes head in
  if String.eqb stripped "" then head else stripped.

(** ['\0' in s] *)
Fixpoint has_nul (s : string) : bool :=
  match s with
  | "" => false
  | String c s' => Ascii.eqb c "000"%char || has_nul s'
  end.

Section Scripts.

Context `{Platform}.

Definition getcwd : string := String "/"%char getcwd_tail.

(** Whether [d], the [os.path.dirname] of a path a script opens, is a
    directory: the current directory is one, and so is the directory
    of every file of the world; of the others the platform knows. *)
Definition dir_exists (d : string) (w : world) : bool :=
  String.eqb d ""
  || existsb (fun f => String.eqb (dirname f.1) d) (map_to_list (fs w))
  || isdir (runs w) d.

(** [with open(p, 'w') as f: f.write(text)] where nothing has made
    sure of the directory of [p]: without it [open] raises
    [FileNotFoundError]. *)
Definition open_and_write (p text : string) : script unit :=
  fun w =>
    if dir_exists (dirname p) w then (write_file p text w, Done tt)
    else (w, Uncaught FileNotFoundError).

(** The body the three [try:] blocks share:
    [requests.get(url)], [raise_for_status()], then
    [open(path, 'wb')] and [write(response.content)].  The result is
    [false] when the [except requests.RequestException] clause is
    entered. *)
Definition try_download (url path : string) (w : world) : world * bool :=
  let w1 := {| fs := fs w; requests := requests w ++ [url];
               runs := runs w |} in
  match http_get (requests w) url with
  | RequestFailed => (w1, false)
  | Response status_code content =>
      if raises_for_status status_code then (w1, false)
      else (write_file path content w1, true)
  end.

(** The same body where [open] may find the directory of [path]
    missing ([made] tells that the script has made that directory
    itself): the [FileNotFoundError] it then raises is no
    [RequestException] and leaves the [try:] block uncaught, after the
    request and before anything is written. *)
Definition try_download_to (made : bool) (url path : string) (w : world)
  : world * (exn + bool) :=
  let w1 := {| fs := fs w; requests := requests w ++ [url];
               runs := runs w |} in
  match http_get (requests w) url with
  | RequestFailed => (w1, inr false)
  | Response status_code content =>
      if raises_for_status status_code then (w1, inr false)
      else if made || dir_exists (dirname path) w
      then (write_file path content w1, inr true)
      else (w1, inl FileNotFoundError)
  end.

(** *** 02_ActSeek_process_pipeline.py *)

Definition input_hits_file : string := "uncharacterized_hits.txt".
Definition output_results_file : string := "../results/actseek_results.txt".
Definition pdb_output_folder : string := "../structures".
Definition protein_list_file : string := Py.path_join getcwd "test.txt".
Definition config_file_path : string := Py.path_join getcwd "config.json".

Definition af_pdb_path (acc : string) : string :=
  Py.path_join pdb_output_folder (af_filename acc).

(** STEP 4, one iteration of [for acc in unique_accessions]; the
    second component is the text written to [protlist] so far.  A
    failed download leaves the loop body at [continue], before the
    [protlist.write].  STEP 2 has made [pdb_output_folder], the
    directory of [af_pdb_path acc]. *)
Definition fetch_candidate (st : world * string) (acc : string)
  : world * string :=
  let '(w, protlist) := st in
  let '(w', resolved) :=
    if negb (path_exists (af_pdb_path acc) w)
    then try_download (af_url (af_filename acc)) (af_pdb_path acc) w
    else (w, true) in
  if resolved then (w', protlist +:+ acc +:+ String Py.LF "")
  else (w', protlist).

(** STEP 4: [open(protein_list_file, 'w')] truncates the manifest,
    the loop runs, and the text written is in the file when the
    [with] block is left. *)
Definition download_models (unique_accessions : list string) (w : world)
  : world :=
  let '(w', protlist) :=
    fold_left fetch_candidate unique_accessions
      (write_file protein_list_file "" w, "") in
  write_file protein_list_file protlist w'.

(** STEP 5: load the configuration and make sure the seed structure
    is there.  [os.path.exists] also takes a file descriptor, which
    is what a number in the field is taken for.  The seed path is
    whatever the configuration says: its directory is known to be
    there when it is [pdb_output_folder], which STEP 2 has made. *)
Definition validate_seed : script (list (string * json)) :=
  fun w =>
    match fs w !! config_file_path with
    | None => (w, SysExit ConfigNotFound)
    | Some text =>
        match json_load text with
        | None => (w, Uncaught JSONDecodeError)
        | Some (JDict config) =>
            match Dict.get "seed_protein_file" config with
            | None => (w, SysExit SeedNotDefined)
            | Some v =>
                if negb (truthy v) then (w, SysExit SeedNotDefined)
                else
                  match v with
                  | JStr seed_path =>
                      if negb (path_exists seed_path w) then
                        let seed_filename := basename seed_path in
                        match try_download_to
                                (String.eqb (dirname seed_path)
                                   pdb_output_folder)
                                (af_url seed_filename) seed_path w with
                        | (w', inr true) => (w', Done config)
                        | (w', inr false) =>
                            (w', SysExit (SeedDownloadFailed seed_filename))
                        | (w', inl e) => (w', Uncaught e)
                        end
                      else (w, Done config)
                  | JInt fd =>
                      if (fd <? - 2 ^ 31) || (2 ^ 31 <=? fd)
                      then (w, Uncaught OverflowError)
                      else if fd_open fd then (w, Done config)
                      else (w, Uncaught TypeError)
                  | JBool _ =>
                      if fd_open 1 then (w, Done config)
                      else (w, Uncaught TypeError)
                  | _ => (w, Uncaught TypeError)
                  end
            end
        | Some _ => (w, Uncaught AttributeError)
        end
    end.

(** [config[k]] *)
Definition subscript (config : list (string * json)) (k : string)
  : exn + json :=
  match Dict.get k config with
  | Some v => inr v
  | None => inl (KeyError k)
  end.

(** STEP 6: the list display reads the sixteen fields from left to
    right, then the three optional flags are appended.  The list
    holds Python objects: a field used without [str()] keeps the
    type it has in the configuration. *)
Definition actseek_command (config : list (string * json))
  : exn + list json :=
  active_site ← subscript config "active_site";
  selected_active ← subscript config "selected_active";
  aa_grouping ← subscript config "aa_grouping";
  random_seed ← subscript config "random_seed";
  threshold ← subscript config "threshold";
  threshold_combinations ← subscript config "threshold_combinations";
  aa_surrounding ← subscript config "aa_surrounding";
  aa_surrounding_threshold ← subscript config "aa_surrounding_threshold";
  threshold_others ← subscript config "threshold_others";
  iterations ← subscript config "iterations";
  first_in_file ← subscript config "first_in_file";
  max_protein ← subscript config "max_protein";
  protein_file ← subscript config "protein_file";
  alphafold_proteins_path ← subscript config "alphafold_proteins_path";
  seed_protein_file ← subscript config "seed_protein_file";
  path_results ← subscript config "path_results";
  let cmd :=
    [ JStr "actseek";
      JStr "-a"; active_site;
      JStr "-sa"; selected_active;
      JStr "-g"; JStr (json_dumps aa_grouping);
      JStr "-r"; JStr (py_str random_seed);
      JStr "-t1"; JStr (py_str threshold);
      JStr "-t1c"; JStr (py_str threshold_combinations);
      JStr "-t2"; JStr (py_str aa_surrounding);
      JStr "-t2t"; JStr (py_str aa_surrounding_threshold);
      JStr "-t3"; JStr (py_str threshold_others);
      JStr "-i"; JStr (py_str iterations);
      JStr "-f"; JStr (py_str first_in_file);
      JStr "-m"; JStr (py_str max_protein);
      JStr "-s"; protein_file;
      JStr "-af"; alphafold_proteins_path;
      JStr "-p"; seed_protein_file;
      JStr "-pr"; path_results ] in
  let cmd := if get_truthy "delete_protein_files" config
             then cmd ++ [JStr "-d"] else cmd in
  let cmd := if get_truthy "KVFinder" config
             then cmd ++ [JStr "-kv"] else cmd in
  let cmd := if get_truthy "custom" config
             then cmd ++ [JStr "-c"] else cmd in
  inr cmd.

(** The argument list as [subprocess] converts it before the program
    is started, token by token: one that is not a string is a
    [TypeError], a string that holds a NUL a [ValueError]. *)
Fixpoint as_args (cmd : list json) : exn + list string :=
  match cmd with
  | [] => inr []
  | JStr s :: cmd' =>
      if has_nul s then inl ValueError
      else args ← as_args cmd'; inr (s :: args)
  | _ :: _ => inl TypeError
  end.

(** The three [f.write] calls of the [except] branch. *)
Definition failure_log (stdout stderr : string) : string :=
  let text := "" in
  let text := text +:+ ("ACTSEEK_BATCH_FAILED" +:+ nl) in
  let text := text +:+ (nl +:+ "STDOUT:" +:+ nl +:+ stdout +:+ nl) in
  let text := text +:+ (nl +:+ "STDERR:" +:+ nl +:+ stderr +:+ nl) in
  text.

(** STEP 7: [check=True] raises [CalledProcessError] for every
    non-zero return code, and that is the one exception caught.  The
    log is opened in the [try] branch and in the handler alike, and
    nothing in the script makes its directory. *)
Definition run_actseek (cmd : list json) : script unit :=
  fun w =>
    match as_args cmd with
    | inl e => (w, Uncaught e)
    | inr args =>
        match run_tool (fs w) args with
        | SpawnFailed => (w, Uncaught OSError)
        | Completed returncode stdout stderr files =>
            let w' := {| fs := files; requests := requests w;
                         runs := runs w ++ [args] |} in
            if returncode =? 0
            then open_and_write output_results_file stdout w'
            else open_and_write output_results_file
                   (failure_log stdout stderr) w'
        end
    end.

(** STEPS 5 to 7 *)
Definition validate_build_run : script unit :=
  config ← validate_seed;
  match actseek_command config with
  | inl e => raise e
  | inr cmd => run_actseek cmd
  end.

(** The whole script; STEP 2, [os.makedirs] with [exist_ok=True], is
    taken to succeed. *)
Definition main : script unit :=
  fun w =>
    match fs w !! input_hits_file with
    | None => (w, SysExit HitsFileNotFound)
    | Some content =>
        let unique_accessions := Extract.extract content in
        validate_build_run (download_models unique_accessions w)
    end.

(** *** seed_selector.py *)

Definition seed_id_file : string := "query_seed_accession.txt".

Definition seed_structure_path (seed_filename : string) : string :=
  Py.path_join (Py.path_join ".." "structures") seed_filename.

Definition config_path : string := Py.path_join getcwd "config.json".

(** The two item assignments of STEP 5; only a dictionary accepts
    them. *)
Definition update_config (config : json) (seed_path : string)
  : exn + json :=
  match config with
  | JDict d =>
      let d := Dict.set "seed_protein_file" (JStr seed_path) d in
      let d := Dict.set "active_site" (JStr "1,2,3") d in
      inr (JDict d)
  | _ => inl TypeError
  end.

(** STEPS 1 to 4: the accession is read, the structure is fetched
    when it is not there.  Nothing here makes the directory the
    structure goes to. *)
Definition select_seed : script string :=
  fun w =>
    match fs w !! seed_id_file with
    | None => (w, SysExit SeedAccessionNotFound)
    | Some text =>
        let seed_accession := Py.strip (Py.universal_newlines text) in
        let seed_filename := af_filename seed_accession in
        let path := seed_structure_path seed_filename in
        if negb (path_exists path w) then
          match try_download_to false (af_url seed_filename) path w with
          | (w', inr true) => (w', Done path)
          | (w', inr false) =>
              (w', SysExit (SelectorDownloadFailed seed_filename))
          | (w', inl e) => (w', Uncaught e)
          end
        else (w, Done path)
    end.

(** STEP 5: the configuration is loaded, changed and written back. *)
Definition rewrite_config (seed_path : string) : script unit :=
  fun w =>
    match fs w !! config_path with
    | None => (w, SysExit (SelectorConfigNotFound config_path))
    | Some text =>
        match json_load text with
        | None => (w, Uncaught JSONDecodeError)
        | Some config =>
            match update_config config seed_path with
            | inl e => (w, Uncaught e)
            | inr config' =>
                (write_file config_path (json_dumps_indent4 config') w,
                 Done tt)
            end
        end
    end.

Definition seed_selector : script unit :=
  seed_path ← select_seed; rewrite_config seed_path.

End Scripts.

(** ** The extraction step as the specification words it *)

Module Stated.

(** A line without its terminator. *)
Definition chomp (line : string) : string :=
  match String.rev line with
  | String c r => if Ascii.eqb c Py.LF then String.rev r else line
  | "" => line
  end.

(** "Split on the tab character; lines with fewer than two fields are
    skipped; from the second field extract the captured group." *)
Definition scan_line (accessions : list string) (line : string)
  : list string :=
  match Py.split Py.TAB (chomp line) with
  | _ :: second :: _ =>
      match Extract.re_search second with
      | Some g => accessions ++ [g]
      | None => accessions
      end
  | _ => accessions
  end.

Definition extract_raw (content : string) : list string :=
  fold_left scan_line (Py.file_lines content) [].

Definition extract (content : string) : list string :=
  Py.sorted (Py.set (extract_raw content)).

End Stated.

(** ** Vocabulary of the statements *)

(** [all(P(c) for c in s)] *)
Fixpoint all_chars (P : ascii -> bool) (s : string) : bool :=
  match s with
  | "" => true
  | String c s' => P c && all_chars P s'
  end.

(** The accessions one line contributes, by cases on its fields. *)
Definition line_accessions (line : string) : list string :=
  match Py.split Py.TAB (Py.strip line) with
  | _ :: second :: _ => option_list (Extract.re_search second)
  | _ => []
  end.

(** Strictly ascending in Python's string order. *)
Definition str_lt (a b : string) : Prop := String.le a b /\ a <> b.

(** The text of a manifest listing [accs]. *)
Definition manifest_text (accs : list string) : string :=
  foldr (fun acc text => acc +:+ nl +:+ text) "" accs.

(** A response the [try] block turns into a [RequestException]. *)
Definition rejected (r : response) : Prop :=
  match r with
  | RequestFailed => True
  | Response status_code _ => 400 <= status_code < 600
  end.

(** The structure files present in [w], among [accs]. *)
Definition resolved_in `{Platform} (w : world) (accs : list string)
  : list string :=
  filter (fun acc => is_Some (fs w !! af_pdb_path acc)) accs.

(** The fields the list display subscripts, in source order. *)
Definition required_fields : list string :=
  [ "active_site"; "selected_active"; "aa_grouping"; "random_seed";
    "threshold"; "threshold_combinations"; "aa_surrounding";
    "aa_surrounding_threshold"; "threshold_others"; "iterations";
    "first_in_file"; "max_protein"; "protein_file";
    "alphafold_proteins_path"; "seed_protein_file"; "path_results" ].

(** The token an optional flag contributes: none when the field is
    absent or false. *)
Definition flag_token (field token : string) (config : list (string * json))
  : list json :=
  match Dict.get field config with
  | None => []
  | Some v => if truthy v then [JStr token] else []
  end.

(** ** Vocabulary of the further properties *)

(** The same text with every line ending written as "\r\n". *)
Fixpoint crlf (s : string) : string :=
  match s with
  | "" => ""
  | String c s' =>
      if Ascii.eqb c Py.LF then String Py.CR (String Py.LF (crlf s'))
      else String c (crlf s')
  end.

Definition not_char (x c : ascii) : bool := negb (Ascii.eqb c x).

(** The fields the list display uses as they are, without [str()]. *)
Definition raw_fields : list string :=
  [ "active_site"; "selected_active"; "protein_file";
    "alphafold_proteins_path"; "seed_protein_file"; "path_results" ].

Definition is_str (v : json) : Prop := exists s, v = JStr s.

(** A token that is not a string with a NUL in it. *)
Definition nul_free (v : json) : bool :=
  match v with
  | JStr s => negb (has_nul s)
  | _ => true
  end.

(** The accessions of [accs] whose structure file is missing in [w]. *)
Definition missing_in `{Platform} (w : world) (accs : list string)
  : list string :=
  filter (fun acc => fs w !! af_pdb_path acc = None) accs.

(** ** A concrete platform *)

Module Demo.

Definition full_config : list (string * json) :=
  [ ("active_site", JStr "10,20,30");
    ("selected_active", JStr "0,1,2");
    ("aa_grouping", JDict [("A", JStr "GAVLI"); ("B", JStr "FYW")]);
    ("random_seed", JInt 42);
    ("threshold", JFloat 0.5%float);
    ("threshold_combinations", JInt 2);
    ("aa_surrounding", JInt 6);
    ("aa_surrounding_threshold", JFloat 0.75%float);
    ("threshold_others", JInt 3);
    ("iterations", JInt 100);
    ("first_in_file", JInt 0);
    ("max_protein", JInt 50);
    ("protein_file", JStr "test.txt");
    ("alphafold_proteins_path", JStr "../structures");
    ("seed_protein_file", JStr "../structures/AF-Q9XYZ1-F1-model_v4.pdb");
    ("path_results", JStr "../results");
    ("KVFinder", JBool true);
    ("custom", JBool false) ].

(** A server that has two models and nothing else. *)
Definition server (log : list string) (url : string) : response :=
  if String.eqb url
       "https://alphafold.ebi.ac.uk/files/AF-P12345-F1-model_v4.pdb"
  then Response 200 "ATOM 1"
  else if String.eqb url
            "https://alphafold.ebi.ac.uk/files/AF-Q9XYZ1-F1-model_v4.pdb"
  then Response 200 "ATOM 2"
  else Response 404 "Not Found".

(** A server that answers 304 with an empty body. *)
Definition not_modified (log : list string) (url : string) : response :=
  Response 304 "".

Definition load (text : string) : option json :=
  if String.eqb text "FULL" then Some (JDict full_config)
  else if String.eqb text "EMPTY" then Some (JDict [])
  else None.

Definition str (v : json) : string :=
  match v with
  | JStr s => s
  | JInt 42 => "42"
  | _ => "0"
  end.

Definition dumps (v : json) : string :=
  match v with
  | JDict d => String.concat "," (d.*1)
  | _ => "null"
  end.

Definition platform_of (dirs : list string)
    (http : list string -> string -> response)
    (returncode : Z) (stdout stderr : string) : Platform :=
  {| getcwd_tail := "home/max/pipeline";
     http_get := http;
     run_tool := fun files _ => Completed returncode stdout stderr files;
     isdir := fun _ d => bool_decide (d ∈ dirs);
     fd_open := fun _ => false;
     json_load := load;
     json_dumps := dumps;
     json_dumps_indent4 := dumps;
     py_str := str |}.

(** The layout of the repository: the scripts run in one directory,
    next to [structures] and [results]. *)
Definition layout : list string := ["../structures"; "../results"].

Definition platform : Platform := platform_of layout server 0 "OK" "".
Definition stale_server : Platform :=
  platform_of layout not_modified 0 "OK" "".


(** A fresh checkout in which no script has run: neither directory is
    there yet. *)
Definition fresh_checkout : Platform := platform_of [] server 0 "OK" "".

Definition files (l : list (string * string)) : world :=
  {| fs := list_to_map l; requests := []; runs := [] |}.

Definition hits : string :=
  "q1" +:+ String Py.TAB "AF-P12345-F1-model_v4" +:+ nl +:+
  "q2" +:+ String Py.TAB "AF-A0A0E9-F1-model_v4" +:+ nl +:+
  "q3" +:+ String Py.TAB "AF-P12345-F1-model_v4" +:+ nl +:+
  "q4" +:+ String Py.TAB "AF-B7C8D9-F1-model_v4" +:+ nl +:+
  "nocolumn" +:+ nl.

End Demo.

(** * Properties *)

(** ** Strings *)

#[local] Arguments String.append !_ _ / : simpl nomatch.

Lemma str_app_nil_r (s : string) : s +:+ "" = s.
Proof. induction s as [|c s IH]; [reflexivity|]. cbn. by rewrite IH. Qed.

Lemma str_app_assoc (s1 s2 s3 : string) : (s1 +:+ s2) +:+ s3 = s1 +:+ s2 +:+ s3.
Proof. induction s1 as [|c s1 IH]; [reflexivity|]. cbn. by rewrite IH. Qed.

Lemma str_length_app (s1 s2 : string) :
  String.length (s1 +:+ s2) = (String.length s1 + String.length s2)%nat.
Proof. induction s1 as [|c s1 IH]; [reflexivity|]. cbn. by rewrite IH. Qed.

Lemma str_app_inj_r (s1 s2 t : string) : s1 +:+ t = s2 +:+ t -> s1 = s2.
Proof.
  revert s2. induction s1 as [|c s1 IH]; intros [|d s2] E; cbn in E.
  - reflexivity.
  - apply (f_equal String.length) in E. cbn in E. rewrite str_length_app in E. lia.
  - apply (f_equal String.length) in E. cbn in E. rewrite str_length_app in E. lia.
  - injection E as -> E. f_equal. by apply IH.
Qed.

(** ** C3: accession extraction *)

Section Extraction.

Import Extract.

Lemma scan_line_accessions accs line :
  scan_line accs line = accs ++ line_accessions line.
Proof.
  unfold scan_line, line_accessions.
  destruct (Py.split Py.TAB (Py.strip line)) as [|f1 [|f2 rest]]; cbn.
  - by rewrite List.app_nil_r.
  - by rewrite List.app_nil_r.
  - replace (2 <=? Z.of_nat (S (S (length rest)))) with true
      by (symmetry; apply Z.leb_le; lia).
    destruct (re_search f2); cbn; [done | by rewrite List.app_nil_r].
Qed.

Lemma fold_scan_line lines accs :
  fold_left scan_line lines accs = accs ++ flat_map line_accessions lines.
Proof.
  revert accs. induction lines as [|l lines IH]; intros accs; cbn.
  - by rewrite List.app_nil_r.
  - rewrite IH, scan_line_accessions. by rewrite <- List.app_assoc.
Qed.

(** What the group of a match looks like. *)
Lemma match_group_sound s : forall grp g,
  match_group grp s = Some g ->
  exists run post,
    g = grp +:+ run /\ s = run +:+ String "-"%char post
    /\ all_chars is_upper_or_digit run = true /\ g <> "".
Proof.
  induction s as [|c s IH]; intros grp g Hm; [discriminate|].
  cbn in Hm.
  destruct (is_upper_or_digit c) eqn:Hc.
  - destruct (match_group (grp +:+ String c "") s) as [g'|] eqn:Hg.
    + injection Hm as <-. destruct (IH _ _ Hg) as (run & post & -> & -> & Hall & Hne).
      exists (String c run), post. rewrite str_app_assoc in *. cbn in *.
      rewrite Hc, Hall. done.
    + destruct (negb (String.eqb grp "") && Ascii.eqb c "-")%bool eqn:Hd;
        [|discriminate].
      apply andb_true_iff in Hd as [_ Hd]. apply Ascii.eqb_eq in Hd as ->.
      discriminate Hc.
  - destruct (negb (String.eqb grp "") && Ascii.eqb c "-")%bool eqn:Hd;
      [|discriminate].
    injection Hm as <-. apply andb_true_iff in Hd as [Hg Hd].
    apply Ascii.eqb_eq in Hd as ->. apply negb_true_iff, String.eqb_neq in Hg.
    exists "", s. by rewrite str_app_nil_r.
Qed.

Lemma re_search_sound s g :
  re_search s = Some g ->
  g <> "" /\ all_chars is_upper_or_digit g = true
  /\ exists pre post, s = pre +:+ "AF-" +:+ g +:+ String "-"%char post.
Proof.
  induction s as [|c s IH].
  - cbn. discriminate.
  - intros Hs. cbn [re_search] in Hs.
    destruct (match_here (String c s)) as [g'|] eqn:Hh.
    + injection Hs as ->. unfold match_here in Hh.
      destruct c as [[] [] [] [] [] [] [] []]; try discriminate Hh.
      destruct s as [|c1 s]; [discriminate|].
      destruct c1 as [[] [] [] [] [] [] [] []]; try discriminate Hh;
        (destruct s as [|c2 s]; [discriminate|]);
        destruct c2 as [[] [] [] [] [] [] [] []]; try discriminate Hh.
      destruct (match_group_sound _ _ _ Hh) as (run & post & -> & -> & Hall & Hne).
      split; [done|]. split; [done|]. by exists "", post.
    + destruct (IH Hs) as (Hne & Hall & pre & post & ->).
      split; [done|]. split; [done|]. by exists (String c pre), post.
Qed.

Lemma match_group_complete run : forall grp post,
  all_chars is_upper_or_digit run = true ->
  grp <> "" \/ run <> "" ->
  match_group grp (run +:+ String "-"%char post) = Some (grp +:+ run).
Proof.
  induction run as [|c run IH]; intros grp post Hall Hne.
  - destruct Hne as [Hne|]; [|done]. cbn.
    apply String.eqb_neq in Hne. rewrite Hne. cbn. by rewrite str_app_nil_r.
  - cbn in Hall. apply andb_true_iff in Hall as [Hc Hall]. cbn.
    rewrite Hc, IH, str_app_assoc; [done..|].
    left. by destruct grp.
Qed.

Lemma re_search_complete pre g post :
  g <> "" -> all_chars is_upper_or_digit g = true ->
  is_Some (re_search (pre +:+ "AF-" +:+ g +:+ String "-"%char post)).
Proof.
  intros Hne Hall. induction pre as [|c pre IH].
  - exists g. cbn -[match_group].
    rewrite (match_group_complete g "" post); auto.
  - change (String c pre +:+ ?t) with (String c (pre +:+ t)).
    cbn [re_search]. by destruct (match_here _).
Qed.

(** [sorted] of duplicate-free strings is strictly ascending. *)
Lemma sorted_strict xs :
  NoDup xs -> StronglySorted str_lt (Py.sorted xs).
Proof.
  intros Hnd. unfold Py.sorted.
  assert (Hs : StronglySorted String.le (merge_sort String.le xs))
    by apply (StronglySorted_merge_sort _).
  assert (Hn : NoDup (merge_sort String.le xs))
    by (by rewrite merge_sort_Permutation).
  induction Hs as [|x l Hs IH Hx]; [constructor|].
  apply NoDup_cons in Hn as [Hin Hn]. constructor; [auto|].
  apply Forall_forall. intros y Hy. split.
  - by eapply Forall_forall in Hx.
  - intros ->. done.
Qed.

Lemma str_lt_sorted_le l :
  StronglySorted str_lt l -> StronglySorted String.le l /\ NoDup l.
Proof.
  induction 1 as [|x l Hs [IH1 IH2] Hx]; [split; constructor|].
  split.
  - constructor; [done|]. eapply Forall_impl; [done|]. by intros ? [].
  - constructor; [|done]. intros Hin.
    eapply Forall_forall in Hx as [_ ?]; done.
Qed.

(** Whatever order the set is enumerated in, [sorted] gives the same
    list. *)
Lemma sorted_enumeration_irrelevant xs ys :
  ys ≡ₚ Py.set xs -> Py.sorted ys = Py.sorted (Py.set xs).
Proof.
  intros Hp. unfold Py.sorted.
  apply (StronglySorted_unique String.le);
    try apply (StronglySorted_merge_sort _).
  by rewrite !merge_sort_Permutation.
Qed.

End Extraction.

(** C3 (amended). Every line is stripped of leading and trailing
    whitespace before it is split on tabs; a stripped line with fewer
    than two fields, or whose second field has no match of
    [AF-([A-Z0-9]+)-], contributes nothing.  The result is the strictly
    ascending list with exactly the raw matches as elements, that is
    [sorted(set(raw))] whatever order the set is enumerated in, and each
    element is a non-empty run of upper-case letters and digits. *)
Theorem extract_is_sorted_set (content : string) :
  Extract.extract_raw content
    = flat_map line_accessions (Py.file_lines content)
  /\ StronglySorted str_lt (Extract.extract content)
  /\ (forall a, a ∈ Extract.extract content <-> a ∈ Extract.extract_raw content)
  /\ (forall l, StronglySorted str_lt l ->
        (forall a, a ∈ l <-> a ∈ Extract.extract_raw content) ->
        l = Extract.extract content)
  /\ (forall a, a ∈ Extract.extract content ->
        a <> "" /\ all_chars Extract.is_upper_or_digit a = true).
Proof.
  assert (Hraw : Extract.extract_raw content
                 = flat_map line_accessions (Py.file_lines content))
    by apply (fold_scan_line _ []).
  assert (Hmem : forall a, a ∈ Extract.extract content
                           <-> a ∈ Extract.extract_raw content).
  { intros a. unfold Extract.extract, Py.sorted, Py.set.
    by rewrite merge_sort_Permutation, elem_of_remove_dups. }
  assert (Hsorted : StronglySorted str_lt (Extract.extract content))
    by apply sorted_strict, NoDup_remove_dups.
  assert (Hshape : forall a, a ∈ Extract.extract content ->
             a <> "" /\ all_chars Extract.is_upper_or_digit a = true).
  { intros a Ha. apply Hmem in Ha. rewrite Hraw in Ha.
    apply list_elem_of_In, in_flat_map in Ha as (line & _ & Hin).
    unfold line_accessions in Hin.
    destruct (Py.split _ _) as [|? [|second ?]]; try done.
    destruct (Extract.re_search second) eqn:Hs; [|done].
    destruct Hin as [->|[]].
    by apply re_search_sound in Hs as (? & ? & _). }
  split; [done|]. split; [done|]. split; [done|]. split; [|done].
  intros l Hl Hel.
  destruct (str_lt_sorted_le _ Hl) as [Hle Hnd].
  destruct (str_lt_sorted_le _ Hsorted) as [Hle' Hnd'].
  apply (StronglySorted_unique String.le); [done..|].
  apply NoDup_Permutation; [done..|].
  intros a. by rewrite Hel, Hmem.
Qed.

(** C3, as stated, fails on a line whose first column is empty: the
    statement splits the line itself, which gives two fields and the
    accession, while the code strips the leading tab first and is left
    with a single field. *)
Lemma extract_strips_before_split :
  let hits := String Py.TAB "AF-P12345-F1-model_v4" +:+ nl in
  Stated.extract hits = ["P12345"] /\ Extract.extract hits = [].
Proof. vm_compute. split; reflexivity. Qed.

(** ** The structure fetcher *)

Section Fetcher.

Context `{Platform}.

Lemma af_pdb_path_eq acc :
  af_pdb_path acc = "../structures/AF-" +:+ acc +:+ "-F1-model_v4.pdb".
Proof. reflexivity. Qed.

Lemma af_pdb_path_inj a b : af_pdb_path a = af_pdb_path b -> a = b.
Proof.
  rewrite !af_pdb_path_eq. intros E.
  apply String.app_inj in E. by apply str_app_inj_r in E.
Qed.

Lemma protein_list_file_abs : exists t, protein_list_file = String "/"%char t.
Proof.
  unfold protein_list_file, Py.path_join, getcwd. cbn.
  destruct (Py.ends_with_slash _); eexists; reflexivity.
Qed.

Lemma config_file_path_abs : exists t, config_file_path = String "/"%char t.
Proof.
  unfold config_file_path, Py.path_join, getcwd. cbn.
  destruct (Py.ends_with_slash _); eexists; reflexivity.
Qed.

Lemma protein_list_file_not_structure acc :
  protein_list_file <> af_pdb_path acc.
Proof. destruct protein_list_file_abs as [t ->]. by rewrite af_pdb_path_eq. Qed.

Lemma config_file_path_not_structure acc :
  config_file_path <> af_pdb_path acc.
Proof. destruct config_file_path_abs as [t ->]. by rewrite af_pdb_path_eq. Qed.

Lemma config_file_path_not_manifest : config_file_path <> protein_list_file.
Proof.
  unfold config_file_path, protein_list_file, Py.path_join. cbn.
  destruct (Py.ends_with_slash _); intros E; cbn in E;
    injection E as E; apply String.app_inj in E; discriminate E.
Qed.

Lemma rejected_raises status_code content :
  rejected (Response status_code content) ->
  raises_for_status status_code = true.
Proof. cbn. unfold raises_for_status. lia. Qed.

(** The [try] body: one request is logged; the file is written only
    on the path that does not raise. *)
Lemma try_download_spec url path w :
  let '(w', ok) := try_download url path w in
  requests w' = requests w ++ [url] /\ runs w' = runs w
  /\ (ok = true ->
        exists status_code content,
          http_get (requests w) url = Response status_code content
          /\ ~ rejected (Response status_code content)
          /\ fs w' = <[path := content]> (fs w))
  /\ (ok = false -> rejected (http_get (requests w) url) /\ fs w' = fs w).
Proof.
  unfold try_download.
  destruct (http_get (requests w) url) as [status_code content|]; cbn.
  - destruct (raises_for_status status_code) eqn:Hr; cbn.
    + repeat split; try done; unfold raises_for_status in Hr; lia.
    + repeat split; try done. intros _. exists status_code, content.
      repeat split. unfold raises_for_status in Hr. lia.
  - repeat split; done.
Qed.

Lemma try_download_rejected url path w :
  rejected (http_get (requests w) url) ->
  try_download url path w
  = ({| fs := fs w; requests := requests w ++ [url]; runs := runs w |},
     false).
Proof.
  unfold try_download.
  destruct (http_get (requests w) url) as [status_code content|]; [|done].
  intros Hr. by rewrite (rejected_raises _ _ Hr).
Qed.

Lemma try_download_to_rejected made url path w :
  rejected (http_get (requests w) url) ->
  try_download_to made url path w
  = ({| fs := fs w; requests := requests w ++ [url]; runs := runs w |},
     inr false).
Proof.
  unfold try_download_to.
  destruct (http_get (requests w) url) as [status_code content|]; [|done].
  intros Hr. by rewrite (rejected_raises _ _ Hr).
Qed.

Lemma try_download_to_accepted made url path w status_code content :
  http_get (requests w) url = Response status_code content ->
  ~ 400 <= status_code < 600 ->
  try_download_to made url path w
  = if made || dir_exists (dirname path) w
    then ({| fs := <[path := content]> (fs w);
             requests := requests w ++ [url]; runs := runs w |}, inr true)
    else ({| fs := fs w; requests := requests w ++ [url];
             runs := runs w |}, inl FileNotFoundError).
Proof.
  intros Hget Hok. unfold try_download_to. rewrite Hget.
  assert (raises_for_status status_code = false) as ->
    by (unfold raises_for_status; lia).
  by destruct (made || dir_exists (dirname path) w).
Qed.

(** The [try] body with a directory that may be missing: the request
    is logged in every case, and the file is written only when the
    block is left normally. *)
Lemma try_download_to_spec made url path w :
  let '(w', r) := try_download_to made url path w in
  requests w' = requests w ++ [url] /\ runs w' = runs w
  /\ (r = inr true ->
        exists status_code content,
          http_get (requests w) url = Response status_code content
          /\ ~ rejected (Response status_code content)
          /\ fs w' = <[path := content]> (fs w))
  /\ (r <> inr true -> fs w' = fs w)
  /\ (r = inr false -> rejected (http_get (requests w) url)).
Proof.
  unfold try_download_to.
  destruct (http_get (requests w) url) as [status_code content|]; cbn.
  - destruct (raises_for_status status_code) eqn:Hr; cbn.
    + repeat split; try done; unfold raises_for_status in Hr; lia.
    + destruct (made || dir_exists (dirname path) w); cbn.
      * repeat split; try done. intros _. exists status_code, content.
        repeat split. unfold raises_for_status in Hr. lia.
      * repeat split; done.
  - repeat split; done.
Qed.



Lemma path_exists_true p w : path_exists p w = true <-> is_Some (fs w !! p).
Proof. unfold path_exists. apply bool_decide_eq_true. Qed.

Lemma path_exists_false p w : path_exists p w = false <-> fs w !! p = None.
Proof.
  unfold path_exists. rewrite bool_decide_eq_false.
  by rewrite eq_None_not_Some.
Qed.

(** One iteration of the loop, summarised. *)
Lemma fetch_candidate_spec w protlist acc :
  let '(w', protlist') := fetch_candidate (w, protlist) acc in
  runs w' = runs w
  /\ (forall p, p <> af_pdb_path acc -> fs w' !! p = fs w !! p)
  /\ (is_Some (fs w !! af_pdb_path acc) -> is_Some (fs w' !! af_pdb_path acc))
  /\ protlist'
     = protlist +:+ (if path_exists (af_pdb_path acc) w'
                     then acc +:+ nl else "").
Proof.
  unfold fetch_candidate.
  destruct (path_exists (af_pdb_path acc) w) eqn:Hex; cbn [negb].
  - rewrite Hex. repeat split; try done.
  - pose proof (try_download_spec (af_url (af_filename acc))
                  (af_pdb_path acc) w) as Hs.
    destruct (try_download _ _ w) as [w' [|]].
    + destruct Hs as (_ & Hruns & Hok & _).
      destruct (Hok eq_refl) as (st & body & _ & _ & Hfs).
      assert (path_exists (af_pdb_path acc) w' = true) as ->.
      { apply path_exists_true. rewrite Hfs, lookup_insert_eq. by eexists. }
      repeat split; try done.
      * intros p Hp. by rewrite Hfs, lookup_insert_ne.
      * intros _. rewrite Hfs, lookup_insert_eq. by eexists.
    + destruct Hs as (_ & Hruns & _ & Hko).
      destruct (Hko eq_refl) as [_ Hfs].
      assert (path_exists (af_pdb_path acc) w' = false) as ->.
      { apply path_exists_false. rewrite Hfs. by apply path_exists_false. }
      rewrite str_app_nil_r. repeat split; try done.
      * intros p _. by rewrite Hfs.
      * by rewrite Hfs.
Qed.

Lemma fetch_candidate_rejected w protlist acc :
  fs w !! af_pdb_path acc = None ->
  rejected (http_get (requests w) (af_url (af_filename acc))) ->
  fetch_candidate (w, protlist) acc
  = ({| fs := fs w; requests := requests w ++ [af_url (af_filename acc)];
        runs := runs w |}, protlist).
Proof.
  intros Habs Hrej. unfold fetch_candidate.
  apply path_exists_false in Habs. rewrite Habs. cbn [negb].
  by rewrite try_download_rejected.
Qed.

End Fetcher.

Section Manifest.

Context `{Platform}.

Lemma manifest_text_cons acc accs :
  manifest_text (acc :: accs) = acc +:+ nl +:+ manifest_text accs.
Proof. reflexivity. Qed.

(** The loop over a duplicate-free list. *)
Lemma fetch_loop_spec accs :
  NoDup accs -> forall w protlist,
  let '(w', protlist') := fold_left fetch_candidate accs (w, protlist) in
  runs w' = runs w
  /\ (forall p, (forall a, a ∈ accs -> p <> af_pdb_path a) ->
                fs w' !! p = fs w !! p)
  /\ (forall p, is_Some (fs w !! p) -> is_Some (fs w' !! p))
  /\ protlist' = protlist +:+ manifest_text (resolved_in w' accs)
  /\ (forall a, a ∈ accs -> fs w !! af_pdb_path a = None ->
        (forall log, rejected (http_get log (af_url (af_filename a)))) ->
        fs w' !! af_pdb_path a = None).
Proof.
  induction 1 as [|a rest Hnotin Hnd IH]; intros w protlist.
  - cbn. rewrite str_app_nil_r. repeat split; done.
  - cbn [fold_left].
    pose proof (fetch_candidate_spec w protlist a) as Hstep.
    pose proof (fetch_candidate_rejected w protlist a) as Hrej1.
    destruct (fetch_candidate (w, protlist) a) as [w1 protlist1].
    destruct Hstep as (Hruns1 & Hother1 & Hmono1 & Htext1).
    specialize (IH w1 protlist1).
    destruct (fold_left fetch_candidate rest (w1, protlist1))
      as [w' protlist'].
    destruct IH as (Hruns & Hother & Hmono & Htext & Hrej).
    assert (Hkeep : fs w' !! af_pdb_path a = fs w1 !! af_pdb_path a).
    { apply Hother. intros b Hb E. apply af_pdb_path_inj in E as ->. done. }
    repeat split.
    + congruence.
    + intros p Hp. rewrite Hother, Hother1; [done|..].
      * apply Hp. by left.
      * intros b Hb. apply Hp. by right.
    + intros p Hp.
      destruct (decide (p = af_pdb_path a)) as [->|Hne]; apply Hmono.
      * by apply Hmono1.
      * by rewrite Hother1.
    + rewrite Htext, Htext1, str_app_assoc. f_equal.
      unfold resolved_in at 2. rewrite filter_cons.
      unfold path_exists. rewrite <- Hkeep.
      destruct (decide (is_Some (fs w' !! af_pdb_path a))) as [Hs|Hs].
      * rewrite bool_decide_eq_true_2 by done.
        by rewrite manifest_text_cons, str_app_assoc.
      * rewrite bool_decide_eq_false_2 by done. done.
    + intros b Hb Habs Hall. apply elem_of_cons in Hb as [->|Hb].
      * rewrite Hkeep. specialize (Hrej1 Habs (Hall _)).
        injection Hrej1 as -> _. done.
      * apply Hrej; [done| |done]. rewrite Hother1; [done|].
        intros E. apply af_pdb_path_inj in E as ->. done.
Qed.

Lemma download_models_spec accs w :
  NoDup accs ->
  let w' := download_models accs w in
  runs w' = runs w
  /\ (forall p, p <> protein_list_file ->
                (forall a, a ∈ accs -> p <> af_pdb_path a) ->
                fs w' !! p = fs w !! p)
  /\ fs w' !! protein_list_file = Some (manifest_text (resolved_in w' accs))
  /\ (forall a, a ∈ accs -> is_Some (fs w !! af_pdb_path a) ->
        is_Some (fs w' !! af_pdb_path a))
  /\ (forall a, a ∈ accs -> fs w !! af_pdb_path a = None ->
        (forall log, rejected (http_get log (af_url (af_filename a)))) ->
        fs w' !! af_pdb_path a = None).
Proof.
  intros Hnd. unfold download_models.
  pose proof (fetch_loop_spec accs Hnd
                (write_file protein_list_file "" w) "") as Hloop.
  destruct (fold_left fetch_candidate accs _) as [w1 protlist].
  destruct Hloop as (Hruns & Hother & Hmono & Htext & Hrej).
  cbn [fs runs write_file] in *.
  assert (Hne : forall a, protein_list_file <> af_pdb_path a)
    by apply protein_list_file_not_structure.
  repeat split; last first.
  - intros a Ha Habs Hall. rewrite lookup_insert_ne by apply Hne.
    apply Hrej; [done| |done]. by rewrite lookup_insert_ne by apply Hne.
  - intros a Ha Hhit. rewrite lookup_insert_ne by apply Hne.
    apply Hmono. by rewrite lookup_insert_ne by apply Hne.
  - rewrite lookup_insert_eq, Htext.
    change ("" +:+ ?t) with t. f_equal. f_equal.
    unfold resolved_in. apply list_filter_iff. intros a.
    cbn [fs write_file]. by rewrite lookup_insert_ne by apply Hne.
  - intros p Hp Hps. rewrite lookup_insert_ne by done.
    rewrite Hother by done. by rewrite lookup_insert_ne.
  - done.
Qed.

End Manifest.

Section Requests.

Context `{Platform}.

Lemma fetch_candidate_hit w protlist acc :
  is_Some (fs w !! af_pdb_path acc) ->
  fetch_candidate (w, protlist) acc = (w, protlist +:+ acc +:+ nl).
Proof.
  intros Hhit. unfold fetch_candidate.
  apply path_exists_true in Hhit. by rewrite Hhit.
Qed.

Lemma fetch_candidate_keeps w protlist acc p c :
  fs w !! p = Some c ->
  fs (fetch_candidate (w, protlist) acc).1 !! p = Some c.
Proof.
  intros Hp. destruct (decide (p = af_pdb_path acc)) as [->|Hne].
  - by rewrite fetch_candidate_hit by (by eexists).
  - pose proof (fetch_candidate_spec w protlist acc) as Hs.
    destruct (fetch_candidate (w, protlist) acc) as [w' protlist'].
    destruct Hs as (_ & Hother & _). cbn. by rewrite Hother.
Qed.

Lemma fetch_loop_keeps accs p c : forall st,
  fs st.1 !! p = Some c ->
  fs (fold_left fetch_candidate accs st).1 !! p = Some c.
Proof.
  induction accs as [|a accs IH]; intros [w protlist] Hp; [done|].
  cbn [fold_left]. apply IH. by apply fetch_candidate_keeps.
Qed.

Lemma fetch_candidate_requests w protlist acc :
  requests (fetch_candidate (w, protlist) acc).1
  = requests w ++ (if path_exists (af_pdb_path acc) w then []
                   else [af_url (af_filename acc)]).
Proof.
  unfold fetch_candidate.
  destruct (path_exists (af_pdb_path acc) w); cbn [negb].
  - cbn. by rewrite List.app_nil_r.
  - pose proof (try_download_spec (af_url (af_filename acc))
                  (af_pdb_path acc) w) as Hs.
    destruct (try_download _ _ w) as [w' [|]]; destruct Hs as [Hreq _];
      cbn [fst]; exact Hreq.
Qed.

Lemma filter_ext_in {A} (P Q : A -> Prop) `{!forall x, Decision (P x)}
    `{!forall x, Decision (Q x)} (l : list A) :
  (forall x, x ∈ l -> (P x <-> Q x)) -> filter P l = filter Q l.
Proof.
  induction l as [|x l IH]; intros Hext; [done|].
  rewrite !filter_cons.
  assert (Hx : P x <-> Q x) by (apply Hext; left).
  rewrite IH by (intros y Hy; apply Hext; by right).
  destruct (decide (P x)), (decide (Q x)); tauto || done.
Qed.

Lemma fetch_loop_requests accs :
  NoDup accs -> forall w protlist,
  requests (fold_left fetch_candidate accs (w, protlist)).1
  = requests w
    ++ map (fun acc => af_url (af_filename acc)) (missing_in w accs).
Proof.
  induction 1 as [|a rest Hnotin Hnd IH]; intros w protlist.
  - cbn. by rewrite List.app_nil_r.
  - cbn [fold_left].
    pose proof (fetch_candidate_spec w protlist a) as Hs.
    pose proof (fetch_candidate_requests w protlist a) as Hr.
    destruct (fetch_candidate (w, protlist) a) as [w1 protlist1].
    destruct Hs as (_ & Hother & _). cbn [fst] in Hr.
    rewrite IH, Hr, <- List.app_assoc. f_equal.
    assert (missing_in w1 rest = missing_in w rest) as ->.
    { apply filter_ext_in. intros b Hb. rewrite Hother; [done|].
      intros E. apply af_pdb_path_inj in E as ->. done. }
    unfold missing_in at 2. rewrite filter_cons. unfold path_exists.
    destruct (decide (fs w !! af_pdb_path a = None)) as [Hnone|Hsome].
    + rewrite bool_decide_eq_false_2; [done|].
      rewrite Hnone. by intros [].
    + rewrite bool_decide_eq_true_2; [done|].
      by apply not_eq_None_Some.
Qed.

Lemma fetch_loop_all_cached accs : forall w protlist,
  (forall a, a ∈ accs -> is_Some (fs w !! af_pdb_path a)) ->
  fold_left fetch_candidate accs (w, protlist)
  = (w, protlist +:+ manifest_text accs).
Proof.
  induction accs as [|a accs IH]; intros w protlist Hall.
  - cbn. by rewrite str_app_nil_r.
  - cbn [fold_left]. rewrite fetch_candidate_hit by (apply Hall; left).
    rewrite IH by (intros b Hb; apply Hall; by right).
    by rewrite manifest_text_cons, !str_app_assoc.
Qed.

End Requests.

Section Loop.

Context `{Platform}.


End Loop.

Example demo_extract : Extract.extract Demo.hits = ["A0A0E9"; "B7C8D9"; "P12345"].
Proof. vm_compute. reflexivity. Qed.

Example demo_main :
  let w := Demo.files
             [("uncharacterized_hits.txt", Demo.hits);
              ("/home/max/pipeline/config.json", "FULL");
              ("/home/max/pipeline/test.txt", "old")] in
  let '(w', r) := main (H := Demo.platform) w in
  r = Done tt
  /\ fs w' !! "/home/max/pipeline/test.txt" = Some ("P12345" +:+ nl)
  /\ fs w' !! "../results/actseek_results.txt" = Some "OK"
  /\ length (requests w') = 4%nat.
Proof. vm_compute. repeat split. Qed.

(** ** C1, C2, C10: fetching candidate structures *)

(** C1. When the structure file of an accession is already at
    [join(pdb_output_folder, "AF-{acc}-F1-model_v4.pdb")], the fetch
    leaves the world as it is (no request is logged, no file is
    written) and goes on to list the accession; fetching it a second
    time again changes nothing. *)
Theorem fetch_cached_is_noop `{Platform} (acc : string) (w : world)
    (protlist : string) :
  is_Some (fs w !! Py.path_join pdb_output_folder
                     ("AF-" +:+ acc +:+ "-F1-model_v4.pdb")) ->
  fetch_candidate (w, protlist) acc = (w, protlist +:+ acc +:+ nl)
  /\ fold_left fetch_candidate [acc; acc] (w, protlist)
     = (w, (protlist +:+ acc +:+ nl) +:+ acc +:+ nl).
Proof.
  intros Hhit.
  assert (Hstep : forall text,
             fetch_candidate (w, text) acc = (w, text +:+ acc +:+ nl)).
  { intros text. unfold fetch_candidate.
    assert (path_exists (af_pdb_path acc) w = true) as ->
      by by apply path_exists_true.
    reflexivity. }
  split; [apply Hstep|]. cbn [fold_left]. by rewrite !Hstep.
Qed.

Lemma fetch_cached_is_noop_witness :
  let w := Demo.files [("../structures/AF-P12345-F1-model_v4.pdb", "ATOM 1")] in
  fetch_candidate (H := Demo.platform) (w, "") "P12345"
  = (w, "P12345" +:+ nl).
Proof.
  intros w.
  refine (proj1 (fetch_cached_is_noop (H := Demo.platform) "P12345" w "" _)).
  vm_compute. eexists. reflexivity.
Defined.



(** C10 (amended). In each of the three downloads the file is opened
    only after [raise_for_status] has returned: when the request fails
    in transport or is answered with a status from 400 to 599, the file
    system is left exactly as it was, so the missing structure file is
    still missing.  The candidate is then skipped; for the seed, either
    script exits. *)
Theorem rejected_fetch_writes_nothing `{Platform} :
  (forall w protlist acc,
      fs w !! af_pdb_path acc = None ->
      rejected (http_get (requests w) (af_url (af_filename acc))) ->
      let '(w', protlist') := fetch_candidate (w, protlist) acc in
      fs w' = fs w /\ protlist' = protlist)
  /\ (forall w text config seed_path,
        fs w !! config_file_path = Some text ->
        json_load text = Some (JDict config) ->
        Dict.get "seed_protein_file" config = Some (JStr seed_path) ->
        seed_path <> "" ->
        fs w !! seed_path = None ->
        rejected (http_get (requests w) (af_url (basename seed_path))) ->
        exists w',
          validate_seed w
          = (w', SysExit (SeedDownloadFailed (basename seed_path)))
          /\ fs w' = fs w)
  /\ (forall w text,
        fs w !! seed_id_file = Some text ->
        let name := af_filename (Py.strip (Py.universal_newlines text)) in
        fs w !! seed_structure_path name = None ->
        rejected (http_get (requests w) (af_url name)) ->
        exists w',
          seed_selector w = (w', SysExit (SelectorDownloadFailed name))
          /\ fs w' = fs w).
Proof.
  split; [|split].
  - intros w protlist acc Habs Hrej.
    by rewrite fetch_candidate_rejected.
  - intros w text config seed_path Hcfg Hload Hget Hne Habs Hrej.
    unfold validate_seed. rewrite Hcfg, Hload, Hget.
    apply String.eqb_neq in Hne. cbn [truthy]. rewrite Hne. cbn [negb].
    apply path_exists_false in Habs. rewrite Habs. cbn [negb].
    rewrite try_download_to_rejected by done. by eexists.
  - intros w text Hid name Habs Hrej.
    unfold seed_selector, mbind, script_bind, bind, select_seed.
    rewrite Hid. fold name.
    apply path_exists_false in Habs. rewrite Habs. cbn [negb].
    rewrite try_download_to_rejected by done. by eexists.
Qed.

Lemma rejected_fetch_writes_nothing_witness :
  let w := Demo.files [("/home/max/pipeline/test.txt", "")] in
  let '(w', protlist) :=
    fetch_candidate (H := Demo.platform) (w, "") "A0A0E9" in
  fs w' = fs w /\ protlist = "".
Proof.
  intros w.
  apply (proj1 (rejected_fetch_writes_nothing (H := Demo.platform)) w "" "A0A0E9").
  - reflexivity.
  - cbn. lia.
Defined.

(** C10, as stated, fails for a status outside 200..299 that
    [raise_for_status] lets through: on a 304 with an empty body the
    missing file is created, empty, and the accession is listed. *)
Lemma fetch_writes_on_304 :
  let w := Demo.files [] in
  let path := "../structures/AF-P12345-F1-model_v4.pdb" in
  let '(w', protlist) :=
    fetch_candidate (H := Demo.stale_server) (w, "") "P12345" in
  http_get (Platform := Demo.stale_server) (requests w)
    "https://alphafold.ebi.ac.uk/files/AF-P12345-F1-model_v4.pdb"
  = Response 304 ""
  /\ fs w !! path = None
  /\ fs w' !! path = Some ""
  /\ protlist = "P12345" +:+ nl.
Proof. vm_compute. repeat split. Qed.

(** ** C7, C8: the command line *)

Local Ltac in_list :=
  repeat first [ by apply list_elem_of_here | apply list_elem_of_further ].

(** One subscript of the list display: the field is there, or the
    construction stops with its [KeyError]. *)
Local Ltac field config k :=
  let v := fresh "v" in let E := fresh "E" in
  destruct (Dict.get k config) as [v|] eqn:E;
  [ cbn [mbind raising_bind]
  | left; exists k; split; [unfold required_fields; in_list|];
    split; [done | reflexivity] ].

Section Command.

Context `{Platform}.

Lemma subscript_present config k v :
  Dict.get k config = Some v -> subscript config k = inr v.
Proof. unfold subscript. by intros ->. Qed.

Lemma subscript_absent config k :
  Dict.get k config = None -> subscript config k = inl (KeyError k).
Proof. unfold subscript. by intros ->. Qed.

Lemma flag_token_app field token config cmd :
  (if get_truthy field config then cmd ++ [JStr token] else cmd)
  = cmd ++ flag_token field token config.
Proof.
  unfold get_truthy, flag_token.
  destruct (Dict.get field config) as [v|]; [destruct (truthy v)|];
    by rewrite ?List.app_nil_r.
Qed.

Lemma app3_assoc (a b c d : list json) :
  ((a ++ b) ++ c) ++ d = a ++ b ++ c ++ d.
Proof. by rewrite <- !List.app_assoc. Qed.

(** The command is the thirty-three fixed tokens followed by the
    flags; it fails exactly at the first absent field. *)
Lemma actseek_command_cases config :
  (exists k, k ∈ required_fields /\ Dict.get k config = None
             /\ actseek_command config = inl (KeyError k))
  \/ (exists base,
        length base = 33%nat
        /\ (forall k, k ∈ required_fields -> is_Some (Dict.get k config))
        /\ (forall config',
              (forall k, k ∈ required_fields ->
                         Dict.get k config' = Dict.get k config) ->
              actseek_command config'
              = inr (base ++ flag_token "delete_protein_files" "-d" config'
                          ++ flag_token "KVFinder" "-kv" config'
                          ++ flag_token "custom" "-c" config'))).
Proof.
  unfold actseek_command, subscript.
  field config "active_site". field config "selected_active".
  field config "aa_grouping". field config "random_seed".
  field config "threshold". field config "threshold_combinations".
  field config "aa_surrounding". field config "aa_surrounding_threshold".
  field config "threshold_others". field config "iterations".
  field config "first_in_file". field config "max_protein".
  field config "protein_file". field config "alphafold_proteins_path".
  field config "seed_protein_file". field config "path_results".
  right. eexists. split; [|split].
  2:{ intros k Hk. unfold required_fields in Hk.
      repeat (apply elem_of_cons in Hk as [->|Hk]; [by eexists|]).
      by apply elem_of_nil in Hk. }
  2:{ intros config' Hagree.
      repeat match goal with
             | E : Dict.get ?k config = Some _ |- _ =>
                 rewrite (Hagree k) by (unfold required_fields; in_list);
                 rewrite E; clear E
             end.
      cbn [mbind raising_bind].
      rewrite !flag_token_app. f_equal. apply app3_assoc. }
  reflexivity.
Qed.

End Command.

(** ** Steps 5 to 7 of the pipeline *)

(** A branch of STEP 5 that ends the script without a request. *)
Local Ltac stops := split; [done | split; [discriminate | by left]].

Section Stages.

Context `{Platform}.

Lemma extract_NoDup content : NoDup (Extract.extract content).
Proof.
  apply (str_lt_sorted_le (Extract.extract content)).
  apply sorted_strict, NoDup_remove_dups.
Qed.

(** The candidate loop touches neither the configuration file nor
    the tool. *)
Lemma download_models_keeps_config accs w :
  NoDup accs ->
  fs (download_models accs w) !! config_file_path = fs w !! config_file_path
  /\ runs (download_models accs w) = runs w.
Proof.
  intros Hnd.
  destruct (download_models_spec accs w Hnd) as (Hruns & Hother & _).
  split; [|done]. apply Hother.
  - apply config_file_path_not_manifest.
  - intros a _. apply config_file_path_not_structure.
Qed.

(** STEP 5, summarised: the tool is not run, the configuration
    handed on is the one in the file, and a request is made only for
    a seed path that was read from a loaded configuration. *)
Lemma validate_seed_spec w :
  let '(w', r) := validate_seed w in
  runs w' = runs w
  /\ (forall config, r = Done config ->
        exists text, fs w !! config_file_path = Some text
                     /\ json_load text = Some (JDict config))
  /\ (requests w' = requests w
      \/ exists text config seed_path,
           fs w !! config_file_path = Some text
           /\ json_load text = Some (JDict config)
           /\ Dict.get "seed_protein_file" config = Some (JStr seed_path)
           /\ seed_path <> ""
           /\ requests w' = requests w ++ [af_url (basename seed_path)]).
Proof.
  unfold validate_seed.
  destruct (fs w !! config_file_path) as [text|] eqn:Hcfg; [|stops].
  destruct (json_load text) as [[| | | | | |config]|] eqn:Hload;
    try stops.
  destruct (Dict.get "seed_protein_file" config) as [v|] eqn:Hget;
    [|stops].
  destruct (truthy v) eqn:Htruthy; cbn [negb]; [|stops].
  assert (Hfrom : forall c, @Done (list (string * json)) config = Done c ->
            exists t, Some text = Some t
                      /\ json_load t = Some (JDict c)).
  { intros ? [= <-]. by exists text. }
  destruct v as [|b|fd|f|seed_path|l|d]; try stops.
  - destruct (fd_open 1); [|stops].
    split; [done|]. split; [exact Hfrom|by left].
  - destruct ((fd <? - 2 ^ 31) || (2 ^ 31 <=? fd)); [stops|].
    destruct (fd_open fd); [|stops].
    split; [done|]. split; [exact Hfrom|by left].
  - destruct (path_exists seed_path w) eqn:Hex; cbn [negb].
    + split; [done|]. split; [exact Hfrom|by left].
    + pose proof (try_download_to_spec
                    (String.eqb (dirname seed_path) pdb_output_folder)
                    (af_url (basename seed_path)) seed_path w) as Hs.
      assert (Hne : seed_path <> "")
        by (intros ->; discriminate Htruthy).
      destruct (try_download_to _ _ _ w) as [w' [e|[|]]];
        destruct Hs as (Hreq & Hruns & _);
        (split; [done|]); (split; [exact Hfrom || discriminate|]);
        right; exists text, config, seed_path; done.
Qed.

(** An absent or empty seed field stops STEP 5 where it stands. *)
Lemma validate_seed_undefined w text config :
  fs w !! config_file_path = Some text ->
  json_load text = Some (JDict config) ->
  Dict.get "seed_protein_file" config = None
  \/ Dict.get "seed_protein_file" config = Some (JStr "") ->
  validate_seed w = (w, SysExit SeedNotDefined).
Proof.
  intros Hcfg Hload Hseed. unfold validate_seed. rewrite Hcfg, Hload.
  by destruct Hseed as [-> | ->].
Qed.

Lemma open_and_write_spec p text w :
  let '(w', r) := open_and_write p text w in
  requests w' = requests w /\ runs w' = runs w
  /\ (r = Done tt /\ fs w' = <[p := text]> (fs w)
      \/ r = Uncaught FileNotFoundError /\ fs w' = fs w
         /\ dir_exists (dirname p) w = false).
Proof.
  unfold open_and_write.
  destruct (dir_exists (dirname p) w); cbn [fs requests runs write_file].
  - split; [done|]. split; [done|]. by left.
  - split; [done|]. split; [done|]. by right.
Qed.

Lemma run_actseek_spec cmd w :
  let '(w', r) := run_actseek cmd w in
  requests w' = requests w
  /\ (runs w' = runs w
      \/ exists args, as_args cmd = inr args /\ runs w' = runs w ++ [args]).
Proof.
  unfold run_actseek.
  destruct (as_args cmd) as [e|args]; [by auto|].
  destruct (run_tool (fs w) args) as [rc out err files|]; [|by auto].
  destruct (rc =? 0);
    match goal with
    | |- context [open_and_write ?p ?t ?w7] =>
        pose proof (open_and_write_spec p t w7) as Hs;
        destruct (open_and_write p t w7) as [w' r];
        destruct Hs as (Hreq & Hruns & _)
    end; (split; [done|right; by exists args]).
Qed.


End Stages.

(** C7. A configuration that lacks one of the sixteen fields of the
    list display makes the construction of the command raise [KeyError]
    for the first such field; in the script, whatever happens before
    that point, the run then ends abnormally without the tool having
    been started. *)
Theorem missing_field_raises_at_build `{Platform}
    (config : list (string * json)) (k : string) :
  k ∈ required_fields ->
  Dict.get k config = None ->
  (exists k', k' ∈ required_fields /\ Dict.get k' config = None
              /\ actseek_command config = inl (KeyError k'))
  /\ (forall w text,
        fs w !! config_file_path = Some text ->
        json_load text = Some (JDict config) ->
        let '(w', r) := main w in
        runs w' = runs w /\ forall u, r <> Done u).
Proof.
  intros Hk Hnone.
  assert (Hraise : exists k', k' ∈ required_fields /\ Dict.get k' config = None
                     /\ actseek_command config = inl (KeyError k')).
  { destruct (actseek_command_cases config) as [Hl|(base & _ & Hall & _)];
      [done|].
    destruct (Hall k Hk) as [v Hv]. congruence. }
  split; [done|]. intros w text Hcfg Hload. unfold main.
  destruct (fs w !! input_hits_file) as [content|]; [|done].
  destruct (download_models_keeps_config (Extract.extract content) w
              (extract_NoDup content)) as [Hkeep Hruns].
  unfold validate_build_run, mbind, script_bind, bind.
  pose proof (validate_seed_spec
                (download_models (Extract.extract content) w)) as Hs.
  destruct (validate_seed _) as [w5 [config5| |]];
    destruct Hs as (Hruns5 & Hsame & _).
  - destruct (Hsame _ eq_refl) as (text5 & Hcfg5 & Hload5).
    rewrite Hkeep, Hcfg in Hcfg5. injection Hcfg5 as <-.
    rewrite Hload in Hload5. injection Hload5 as <-.
    destruct Hraise as (k' & _ & _ & ->). split; [congruence|done].
  - split; [congruence|done].
  - split; [congruence|done].
Qed.

Lemma missing_field_raises_at_build_witness :
  exists k, actseek_command (H := Demo.platform) [] = inl (KeyError k).
Proof.
  assert (Hin : "active_site" ∈ required_fields) by apply list_elem_of_here.
  destruct (proj1 (missing_field_raises_at_build (H := Demo.platform)
                     [] "active_site" Hin eq_refl)) as (k & _ & _ & E).
  exists k. exact E.
Defined.

(** C8. When the sixteen required fields are there, the command is
    thirty-three tokens that depend on those fields only, followed by
    [-d], [-kv] and [-c] in this order, each present exactly when its
    field ([delete_protein_files], [KVFinder], [custom]) is there and
    true; a missing flag field counts as false and raises nothing. *)
Theorem optional_flags_are_appended `{Platform}
    (config : list (string * json)) :
  (forall k, k ∈ required_fields -> is_Some (Dict.get k config)) ->
  exists base,
    length base = 33%nat
    /\ actseek_command config
       = inr (base ++ flag_token "delete_protein_files" "-d" config
                   ++ flag_token "KVFinder" "-kv" config
                   ++ flag_token "custom" "-c" config)
    /\ (forall config',
          (forall k, k ∈ required_fields ->
                     Dict.get k config' = Dict.get k config) ->
          actseek_command config'
          = inr (base ++ flag_token "delete_protein_files" "-d" config'
                      ++ flag_token "KVFinder" "-kv" config'
                      ++ flag_token "custom" "-c" config')).
Proof.
  intros Hall.
  destruct (actseek_command_cases config)
    as [(k & Hk & Hnone & _)|(base & Hlen & _ & Hcmd)].
  - destruct (Hall k Hk) as [v Hv]. congruence.
  - exists base. split; [done|]. split; [|done]. by apply Hcmd.
Qed.

Lemma optional_flags_are_appended_witness :
  exists base,
    length base = 33%nat
    /\ actseek_command (H := Demo.platform) Demo.full_config
       = inr (base ++ [JStr "-kv"]).
Proof.
  assert (Hall : forall k, k ∈ required_fields ->
                           is_Some (Dict.get k Demo.full_config)).
  { intros k Hk. unfold required_fields in Hk.
    repeat (apply elem_of_cons in Hk as [->|Hk]; [by eexists|]).
    by apply elem_of_nil in Hk. }
  destruct (optional_flags_are_appended (H := Demo.platform)
              Demo.full_config Hall) as (base & Hlen & Hcmd & _).
  exists base. split; [exact Hlen|]. exact Hcmd.
Defined.




Example run_success_is_logged :
  let w := Demo.files [("../results/actseek_results.txt", "previous run")] in
  let '(w', r) :=
    run_actseek (H := Demo.platform) [JStr "actseek"; JStr "-a"] w in
  r = Done tt /\ fs w' !! "../results/actseek_results.txt" = Some "OK".
Proof. vm_compute. split; reflexivity. Qed.

(** ** C4, C5: the seed and the configuration *)

(** C4. With a configuration whose [seed_protein_file] is absent or
    the empty string, the pipeline script calls [sys.exit] in STEP 5:
    the world it leaves is the one STEP 4 produced, so no request has
    been made for the seed. *)
Theorem missing_seed_field_is_fatal `{Platform} (w : world)
    (content text : string) (config : list (string * json)) :
  fs w !! input_hits_file = Some content ->
  fs w !! config_file_path = Some text ->
  json_load text = Some (JDict config) ->
  Dict.get "seed_protein_file" config = None
  \/ Dict.get "seed_protein_file" config = Some (JStr "") ->
  main w = (download_models (Extract.extract content) w,
            SysExit SeedNotDefined).
Proof.
  intros Hhits Hcfg Hload Hseed. unfold main. rewrite Hhits.
  destruct (download_models_keeps_config (Extract.extract content) w
              (extract_NoDup content)) as [Hkeep _].
  unfold validate_build_run, mbind, script_bind, bind.
  rewrite (validate_seed_undefined _ text config); [done| |done..].
  by rewrite Hkeep.
Qed.

Lemma missing_seed_field_is_fatal_witness :
  let w := Demo.files
             [("uncharacterized_hits.txt", Demo.hits);
              ("/home/max/pipeline/config.json", "EMPTY")] in
  main (H := Demo.platform) w
  = (download_models (H := Demo.platform) (Extract.extract Demo.hits) w,
     SysExit SeedNotDefined).
Proof.
  intros w.
  apply (missing_seed_field_is_fatal (H := Demo.platform) w Demo.hits
           "EMPTY" []); [reflexivity..|].
  left. reflexivity.
Defined.

(** C5 (amended). In the pipeline script a request for the seed is
    made only after the configuration file has been found and loaded
    and its [seed_protein_file] has been read as a non-empty string
    (the other fields are looked at later, when the command is built).
    In the seed selector the request comes first: when the structure
    file is missing it is made whatever the state of the configuration
    file, which is looked for afterwards. *)
Theorem seed_request_and_config_check `{Platform} :
  (forall w content,
      fs w !! input_hits_file = Some content ->
      let w4 := download_models (Extract.extract content) w in
      requests (main w).1 = requests w4
      \/ exists text config seed_path,
           fs w !! config_file_path = Some text
           /\ json_load text = Some (JDict config)
           /\ Dict.get "seed_protein_file" config = Some (JStr seed_path)
           /\ seed_path <> ""
           /\ requests (main w).1
              = requests w4 ++ [af_url (basename seed_path)])
  /\ (forall w text,
        fs w !! seed_id_file = Some text ->
        let name := af_filename (Py.strip (Py.universal_newlines text)) in
        fs w !! seed_structure_path name = None ->
        requests (seed_selector w).1 = requests w ++ [af_url name]).
Proof.
  split.
  - intros w content Hhits w4. unfold main. rewrite Hhits. fold w4.
    destruct (download_models_keeps_config (Extract.extract content) w
                (extract_NoDup content)) as [Hkeep _]. fold w4 in Hkeep.
    unfold validate_build_run, mbind, script_bind, bind.
    pose proof (validate_seed_spec w4) as Hs.
    destruct (validate_seed w4) as [w5 r].
    destruct Hs as (_ & _ & Hreq).
    assert (Hlast : requests
                      (match r with
                       | Done a =>
                           match actseek_command a with
                           | inl e => raise e
                           | inr cmd => run_actseek cmd
                           end w5
                       | SysExit msg => (w5, SysExit msg)
                       | Uncaught e => (w5, Uncaught e)
                       end).1 = requests w5).
    { destruct r as [config| |]; [|done..].
      destruct (actseek_command config) as [e|cmd]; [done|].
      pose proof (run_actseek_spec cmd w5) as Hr.
      destruct (run_actseek cmd w5) as [w7 r7]. by destruct Hr. }
    rewrite Hlast. destruct Hreq as [->|(text & config & seed & Hc & Hrest)].
    + by left.
    + right. exists text, config, seed. by rewrite <- Hkeep.
  - intros w text Hid name Habs.
    unfold seed_selector, mbind, script_bind, bind, select_seed.
    rewrite Hid. fold name.
    apply path_exists_false in Habs. rewrite Habs. cbn [negb].
    pose proof (try_download_to_spec false (af_url name)
                  (seed_structure_path name) w) as Hs.
    destruct (try_download_to _ _ _ w) as [w' [e|[|]]];
      destruct Hs as (Hreq & _); [done| |done].
    unfold rewrite_config.
    destruct (fs w' !! config_path) as [ctext|]; [|done].
    destruct (json_load ctext) as [config|]; [|done].
    by destruct (update_config config _).
Qed.

Lemma seed_request_and_config_check_witness :
  let w := Demo.files [("query_seed_accession.txt", "Q9XYZ1" +:+ nl)] in
  requests (seed_selector (H := Demo.platform) w).1
  = ["https://alphafold.ebi.ac.uk/files/AF-Q9XYZ1-F1-model_v4.pdb"].
Proof.
  intros w.
  apply (proj2 (seed_request_and_config_check (H := Demo.platform)) w
           ("Q9XYZ1" +:+ nl)); reflexivity.
Defined.

(** C5, as stated, fails in the seed selector: with the accession on
    record, no structure file and no configuration file, the seed is
    requested and saved, and only then does the script stop because the
    configuration file is missing. *)
Lemma selector_downloads_before_config_check :
  let w := Demo.files [("query_seed_accession.txt", "Q9XYZ1" +:+ nl)] in
  let '(w', r) := seed_selector (H := Demo.platform) w in
  fs w !! "/home/max/pipeline/config.json" = None
  /\ r = SysExit (SelectorConfigNotFound "/home/max/pipeline/config.json")
  /\ requests w'
     = ["https://alphafold.ebi.ac.uk/files/AF-Q9XYZ1-F1-model_v4.pdb"]
  /\ fs w' !! "../structures/AF-Q9XYZ1-F1-model_v4.pdb" = Some "ATOM 2".
Proof. vm_compute. repeat split. Qed.

(** ** C9: the seed selector *)

Section Selector.

Context `{Platform}.



Lemma seed_structure_path_eq name :
  seed_structure_path (af_filename name)
  = "../structures/AF-" +:+ name +:+ "-F1-model_v4.pdb".
Proof. reflexivity. Qed.

Lemma config_path_not_seed name :
  config_path <> seed_structure_path (af_filename name).
Proof.
  change config_path with config_file_path.
  destruct config_file_path_abs as [t ->].
  by rewrite seed_structure_path_eq.
Qed.

End Selector.



(** Where [../structures] is missing the selector gets no further than
    [open(seed_structure_path, 'wb')]: the model has been requested,
    nothing is stored and the configuration is not touched. *)
Example selector_needs_structures_directory :
  let w := Demo.files
             [("query_seed_accession.txt", "Q9XYZ1" +:+ nl);
              ("/home/max/pipeline/config.json", "FULL")] in
  let '(w', r) := seed_selector (H := Demo.fresh_checkout) w in
  r = Uncaught FileNotFoundError
  /\ requests w'
     = ["https://alphafold.ebi.ac.uk/files/AF-Q9XYZ1-F1-model_v4.pdb"]
  /\ fs w' = fs w.
Proof. vm_compute. repeat split. Qed.

(** * Further properties *)

(** ** Accession extraction *)

Lemma remove_dups_length (l : list string) :
  (length (remove_dups l) <= length l)%nat.
Proof.
  induction l as [|x l IH]; cbn; [lia|].
  destruct (decide_rel elem_of x l); cbn; lia.
Qed.

Lemma line_accessions_length line :
  (length (line_accessions line) <= 1)%nat.
Proof.
  unfold line_accessions.
  destruct (Py.split _ _) as [|? [|second ?]]; cbn; try lia.
  destruct (Extract.re_search second); cbn; lia.
Qed.

Lemma flat_map_line_accessions_length lines :
  (length (flat_map line_accessions lines) <= length lines)%nat.
Proof.
  induction lines as [|l lines IH]; cbn; [lia|].
  rewrite length_app. pose proof (line_accessions_length l). lia.
Qed.

Lemma universal_newlines_id s :
  all_chars (not_char Py.CR) s = true -> Py.universal_newlines s = s.
Proof.
  induction s as [|c s IH]; [done|]. cbn [all_chars].
  intros [Hc Hs]%andb_true_iff. cbn [Py.universal_newlines].
  unfold not_char in Hc. apply negb_true_iff in Hc. rewrite Hc.
  by rewrite IH.
Qed.

Lemma universal_newlines_crlf s :
  all_chars (not_char Py.CR) s = true -> Py.universal_newlines (crlf s) = s.
Proof.
  induction s as [|c s IH]; [done|]. cbn [all_chars].
  intros [Hc Hs]%andb_true_iff. cbn [crlf].
  destruct (Ascii.eqb c Py.LF) eqn:Hlf.
  - apply Ascii.eqb_eq in Hlf as ->.
    change (Py.universal_newlines (String Py.CR (String Py.LF (crlf s))))
      with (String Py.LF (Py.universal_newlines (crlf s))).
    by rewrite IH.
  - cbn [Py.universal_newlines].
    unfold not_char in Hc. apply negb_true_iff in Hc. rewrite Hc.
    by rewrite IH.
Qed.

(** X1. What [re.search] finds is an occurrence of the pattern: a
    non-empty run of upper-case letters and digits standing between
    [AF-] and a dash; and it finds one whenever the text has one. *)
Theorem re_search_matches_pattern (s : string) :
  (forall g, Extract.re_search s = Some g ->
     g <> "" /\ all_chars Extract.is_upper_or_digit g = true
     /\ exists pre post, s = pre +:+ "AF-" +:+ g +:+ String "-"%char post)
  /\ ((exists pre g post,
         g <> "" /\ all_chars Extract.is_upper_or_digit g = true
         /\ s = pre +:+ "AF-" +:+ g +:+ String "-"%char post) ->
      is_Some (Extract.re_search s)).
Proof.
  split.
  - intros g. apply re_search_sound.
  - intros (pre & g & post & Hne & Hall & ->). by apply re_search_complete.
Qed.

(** X2. Round trip between the two naming steps: searching the file
    name the pipeline builds for an accession gives the accession back,
    as does any text that starts with [AF-], the accession and a dash,
    whenever the accession is a non-empty run of upper-case letters and
    digits. *)
Theorem filename_round_trip (acc : string) :
  acc <> "" ->
  all_chars Extract.is_upper_or_digit acc = true ->
  Extract.re_search (af_filename acc) = Some acc
  /\ forall post,
       Extract.re_search ("AF-" +:+ acc +:+ String "-"%char post) = Some acc.
Proof.
  intros Hne Hall.
  assert (Hpost : forall post,
             Extract.re_search ("AF-" +:+ acc +:+ String "-"%char post)
             = Some acc).
  { intros post. cbn -[Extract.match_group].
    by rewrite (match_group_complete acc "" post) by auto. }
  split; [|done]. apply (Hpost "F1-model_v4.pdb").
Qed.

Lemma filename_round_trip_witness :
  Extract.re_search (af_filename "A0A0E9XQA6") = Some "A0A0E9XQA6".
Proof.
  apply (filename_round_trip "A0A0E9XQA6"); [discriminate | reflexivity].
Defined.

(** X3. The accession list depends only on which accessions were hit:
    two hits files with the same set of raw matches, in whatever order
    and however often, give the same list. *)
Theorem extract_depends_on_hit_set (content1 content2 : string) :
  (forall a, a ∈ Extract.extract_raw content1
             <-> a ∈ Extract.extract_raw content2) ->
  Extract.extract content1 = Extract.extract content2.
Proof.
  intros Hsame. unfold Extract.extract, Py.sorted, Py.set.
  apply (StronglySorted_unique String.le);
    try apply (StronglySorted_merge_sort _).
  rewrite !merge_sort_Permutation.
  apply NoDup_Permutation; try apply NoDup_remove_dups.
  intros a. by rewrite !elem_of_remove_dups.
Qed.

Lemma extract_depends_on_hit_set_witness :
  let line acc := "q" +:+ String Py.TAB ("AF-" +:+ acc +:+ "-F1") +:+ nl in
  Extract.extract (line "P12345" +:+ line "A0A0E9" +:+ line "P12345")
  = Extract.extract (line "A0A0E9" +:+ line "P12345").
Proof.
  intros line. apply extract_depends_on_hit_set. intros a.
  change (a ∈ ["P12345"; "A0A0E9"; "P12345"] <-> a ∈ ["A0A0E9"; "P12345"]).
  rewrite !elem_of_cons. tauto.
Defined.

(** X4. The number of unique accessions is at most the number of raw
    hits, which is at most the number of lines of the hits file: a line
    contributes one accession or none. *)
Theorem unique_hits_lines (content : string) :
  (length (Extract.extract content) <= length (Extract.extract_raw content)
   <= length (Py.file_lines content))%nat.
Proof.
  split.
  - unfold Extract.extract, Py.sorted, Py.set.
    rewrite merge_sort_Permutation. apply remove_dups_length.
  - unfold Extract.extract_raw. rewrite fold_scan_line.
    apply flat_map_line_accessions_length.
Qed.

(** X5. Line endings do not matter: a hits file written with "\r\n"
    line ends is read into the same lines, and gives the same
    accessions, as the file written with "\n". *)
Theorem extract_ignores_crlf (content : string) :
  all_chars (not_char Py.CR) content = true ->
  Py.file_lines (crlf content) = Py.file_lines content
  /\ Extract.extract (crlf content) = Extract.extract content.
Proof.
  intros Hcr.
  assert (Hlines : Py.file_lines (crlf content) = Py.file_lines content).
  { unfold Py.file_lines.
    by rewrite universal_newlines_crlf, universal_newlines_id. }
  split; [done|].
  unfold Extract.extract, Extract.extract_raw. by rewrite Hlines.
Qed.

Lemma extract_ignores_crlf_witness :
  Extract.extract (crlf Demo.hits) = Extract.extract Demo.hits.
Proof. apply (extract_ignores_crlf Demo.hits). reflexivity. Defined.

(** ** Structure files *)

(** X6. The candidate phase never deletes or overwrites a file other
    than the manifest: whatever was in a file before is in it
    afterwards, for every list of accessions and every server. *)
Theorem download_models_keeps_files `{Platform} (accs : list string)
    (w : world) (p c : string) :
  p <> protein_list_file ->
  fs w !! p = Some c ->
  fs (download_models accs w) !! p = Some c.
Proof.
  intros Hp Hc. unfold download_models.
  pose proof (fetch_loop_keeps accs p c
                (write_file protein_list_file "" w, "")) as Hloop.
  destruct (fold_left fetch_candidate accs _) as [w' protlist].
  cbn [fs write_file fst] in *.
  rewrite lookup_insert_ne by done. apply Hloop.
  by rewrite lookup_insert_ne.
Qed.

Lemma download_models_keeps_files_witness :
  let w := Demo.files
             [("../structures/AF-P12345-F1-model_v4.pdb", "EARLIER MODEL")] in
  fs (download_models (H := Demo.platform) ["A0A0E9"; "P12345"] w)
    !! "../structures/AF-P12345-F1-model_v4.pdb"
  = Some "EARLIER MODEL".
Proof.
  intros w.
  apply (download_models_keeps_files (H := Demo.platform)); [|reflexivity].
  discriminate.
Defined.

(** X7. For unique accessions the candidate phase makes exactly one
    request for each accession whose structure file is missing, in the
    order of the list, and none for the others: a failed download is
    not tried again. *)
Theorem download_models_requests `{Platform} (accs : list string)
    (w : world) :
  NoDup accs ->
  requests (download_models accs w)
  = requests w
    ++ map (fun acc => af_url (af_filename acc))
         (filter (fun acc => fs w !! af_pdb_path acc = None) accs).
Proof.
  intros Hnd. unfold download_models.
  pose proof (fetch_loop_requests accs Hnd
                (write_file protein_list_file "" w) "") as Hloop.
  destruct (fold_left fetch_candidate accs _) as [w' protlist].
  cbn [fst requests write_file] in *. rewrite Hloop. f_equal.
  unfold missing_in.
  rewrite (filter_ext_in _ (fun acc => fs w !! af_pdb_path acc = None));
    [done|].
  intros a _. cbn [fs write_file].
  by rewrite lookup_insert_ne by apply protein_list_file_not_structure.
Qed.

Lemma download_models_requests_witness :
  let w := Demo.files
             [("../structures/AF-B7C8D9-F1-model_v4.pdb", "ATOM 0")] in
  requests (download_models (H := Demo.platform)
              ["A0A0E9"; "B7C8D9"; "P12345"] w)
  = [ "https://alphafold.ebi.ac.uk/files/AF-A0A0E9-F1-model_v4.pdb";
      "https://alphafold.ebi.ac.uk/files/AF-P12345-F1-model_v4.pdb" ].
Proof.
  intros w.
  assert (Hnd : NoDup ["A0A0E9"; "B7C8D9"; "P12345"])
    by (apply (bool_decide_unpack _); vm_compute; exact I).
  etransitivity;
    [exact (download_models_requests (H := Demo.platform) _ w Hnd)|].
  vm_compute. reflexivity.
Defined.

(** X8. A run that finds every structure file in place does nothing
    but rewrite the manifest, which then lists every accession: no
    request is made and no other file changes. *)
Theorem download_models_all_cached `{Platform} (accs : list string)
    (w : world) :
  (forall a, a ∈ accs -> is_Some (fs w !! af_pdb_path a)) ->
  download_models accs w
  = write_file protein_list_file (manifest_text accs) w.
Proof.
  intros Hall. unfold download_models.
  rewrite fetch_loop_all_cached.
  - unfold write_file. cbn [fs requests runs].
    change ("" +:+ ?t) with t. by rewrite insert_insert_eq.
  - intros a Ha. cbn [fs write_file].
    rewrite lookup_insert_ne by apply protein_list_file_not_structure.
    by apply Hall.
Qed.

Lemma download_models_all_cached_witness :
  let w := Demo.files
             [("../structures/AF-P12345-F1-model_v4.pdb", "ATOM 1")] in
  download_models (H := Demo.platform) ["P12345"] w
  = write_file "/home/max/pipeline/test.txt" ("P12345" +:+ nl) w.
Proof.
  intros w.
  apply (download_models_all_cached (H := Demo.platform) ["P12345"] w).
  intros a ->%list_elem_of_singleton. by eexists.
Defined.

(** X9. A download that is accepted stores the response body, whole
    and unchanged, at the local path, after one request: for a
    candidate, which is then listed; for the seed of the pipeline,
    which then goes on with the configuration; and for the seed of the
    selector.  For either seed this needs the directory of the local
    path to be there ([pdb_output_folder], which the pipeline has
    made, or one that exists already): where it is missing the
    request is made all the same, nothing is stored and the script
    dies of [FileNotFoundError]. *)
Theorem accepted_download_is_stored `{Platform} :
  (forall w protlist acc status_code content,
      fs w !! af_pdb_path acc = None ->
      http_get (requests w) (af_url (af_filename acc))
      = Response status_code content ->
      ~ 400 <= status_code < 600 ->
      fetch_candidate (w, protlist) acc
      = ({| fs := <[af_pdb_path acc := content]> (fs w);
            requests := requests w ++ [af_url (af_filename acc)];
            runs := runs w |},
         protlist +:+ acc +:+ nl))
  /\ (forall w text config seed_path status_code content,
        fs w !! config_file_path = Some text ->
        json_load text = Some (JDict config) ->
        Dict.get "seed_protein_file" config = Some (JStr seed_path) ->
        seed_path <> "" ->
        fs w !! seed_path = None ->
        http_get (requests w) (af_url (basename seed_path))
        = Response status_code content ->
        ~ 400 <= status_code < 600 ->
        (dirname seed_path = pdb_output_folder
         \/ dir_exists (dirname seed_path) w = true ->
         validate_seed w
         = ({| fs := <[seed_path := content]> (fs w);
               requests := requests w ++ [af_url (basename seed_path)];
               runs := runs w |},
            Done config))
        /\ (dirname seed_path <> pdb_output_folder ->
            dir_exists (dirname seed_path) w = false ->
            validate_seed w
            = ({| fs := fs w;
                  requests := requests w ++ [af_url (basename seed_path)];
                  runs := runs w |},
               Uncaught FileNotFoundError)))
  /\ (forall w text status_code content,
        fs w !! seed_id_file = Some text ->
        let name := af_filename (Py.strip (Py.universal_newlines text)) in
        fs w !! seed_structure_path name = None ->
        http_get (requests w) (af_url name) = Response status_code content ->
        ~ 400 <= status_code < 600 ->
        (dir_exists (dirname (seed_structure_path name)) w = true ->
         select_seed w
         = ({| fs := <[seed_structure_path name := content]> (fs w);
               requests := requests w ++ [af_url name];
               runs := runs w |},
            Done (seed_structure_path name)))
        /\ (dir_exists (dirname (seed_structure_path name)) w = false ->
            seed_selector w
            = ({| fs := fs w; requests := requests w ++ [af_url name];
                  runs := runs w |},
               Uncaught FileNotFoundError))).
Proof.
  assert (Hdl : forall url path w status_code content,
             http_get (requests w) url = Response status_code content ->
             ~ 400 <= status_code < 600 ->
             try_download url path w
             = ({| fs := <[path := content]> (fs w);
                   requests := requests w ++ [url]; runs := runs w |},
                true)).
  { intros url path w st body Hget Hok. unfold try_download. rewrite Hget.
    assert (raises_for_status st = false) as ->
      by (unfold raises_for_status; lia).
    reflexivity. }
  split; [|split].
  - intros w protlist acc st body Habs Hget Hok. unfold fetch_candidate.
    apply path_exists_false in Habs. rewrite Habs. cbn [negb].
    by rewrite (Hdl _ _ _ st body).
  - intros w text config seed_path st body Hcfg Hload Hseed Hne Habs Hget Hok.
    unfold validate_seed. rewrite Hcfg, Hload, Hseed.
    apply String.eqb_neq in Hne. cbn [truthy]. rewrite Hne. cbn [negb].
    apply path_exists_false in Habs. rewrite Habs. cbn [negb].
    rewrite (try_download_to_accepted _ _ _ _ st body Hget Hok).
    split.
    + intros [Hmade|Hdir].
      * apply String.eqb_eq in Hmade. by rewrite Hmade.
      * by rewrite Hdir, orb_true_r.
    + intros Hmade%String.eqb_neq Hdir. by rewrite Hmade, Hdir.
  - intros w text st body Hid name Habs Hget Hok.
    unfold seed_selector, mbind, script_bind, bind, select_seed.
    rewrite Hid. fold name.
    apply path_exists_false in Habs. rewrite Habs. cbn [negb].
    rewrite (try_download_to_accepted _ _ _ _ st body Hget Hok).
    split; intros Hdir; by rewrite Hdir.
Qed.

Lemma accepted_download_is_stored_witness :
  let w := Demo.files [] in
  fs (fetch_candidate (H := Demo.platform) (w, "") "P12345").1
    !! "../structures/AF-P12345-F1-model_v4.pdb"
  = Some "ATOM 1".
Proof.
  intros w.
  rewrite (proj1 (accepted_download_is_stored (H := Demo.platform))
             w "" "P12345" 200 "ATOM 1"); [reflexivity..|lia].
Defined.

(** X10. The seed is fetched at most once as well: when the file the
    configuration names is there, STEP 5 of the pipeline hands the
    configuration on and leaves the world as it is; when the file the
    selector computes is there, the selector makes no request. *)
Theorem seed_cached_is_noop `{Platform} :
  (forall w text config seed_path,
      fs w !! config_file_path = Some text ->
      json_load text = Some (JDict config) ->
      Dict.get "seed_protein_file" config = Some (JStr seed_path) ->
      seed_path <> "" ->
      is_Some (fs w !! seed_path) ->
      validate_seed w = (w, Done config))
  /\ (forall w text,
        fs w !! seed_id_file = Some text ->
        let name := af_filename (Py.strip (Py.universal_newlines text)) in
        is_Some (fs w !! seed_structure_path name) ->
        select_seed w = (w, Done (seed_structure_path name))
        /\ requests (seed_selector w).1 = requests w).
Proof.
  split.
  - intros w text config seed_path Hcfg Hload Hseed Hne Hhit.
    unfold validate_seed. rewrite Hcfg, Hload, Hseed.
    apply String.eqb_neq in Hne. cbn [truthy]. rewrite Hne. cbn [negb].
    apply path_exists_true in Hhit. by rewrite Hhit.
  - intros w text Hid name Hhit.
    assert (Hsel : select_seed w = (w, Done (seed_structure_path name))).
    { unfold select_seed. rewrite Hid. fold name.
      apply path_exists_true in Hhit. by rewrite Hhit. }
    split; [done|].
    unfold seed_selector, mbind, script_bind, bind. rewrite Hsel.
    unfold rewrite_config.
    destruct (fs w !! config_path) as [ctext|]; [|done].
    destruct (json_load ctext) as [config|]; [|done].
    by destruct (update_config config _).
Qed.

Lemma seed_cached_is_noop_witness :
  let w := Demo.files
             [("/home/max/pipeline/config.json", "FULL");
              ("../structures/AF-Q9XYZ1-F1-model_v4.pdb", "ATOM 2")] in
  validate_seed (H := Demo.platform) w = (w, Done Demo.full_config).
Proof.
  intros w.
  apply (proj1 (seed_cached_is_noop (H := Demo.platform)) w "FULL"
           Demo.full_config "../structures/AF-Q9XYZ1-F1-model_v4.pdb");
    try reflexivity; [discriminate | by eexists].
Defined.

(** ** The pipeline script as a whole *)

Section MainMore.

Context `{Platform}.

Lemma as_args_inr cmd :
  (exists args, as_args cmd = inr args)
  <-> Forall is_str cmd /\ forallb nul_free cmd = true.
Proof.
  induction cmd as [|v cmd IH]; cbn [as_args forallb].
  - split; [by split|by eexists].
  - rewrite Forall_cons.
    destruct v as [|b|n|f|s|l|d]; cbn [nul_free];
      try (split; [by intros [? ?] | by intros [[[? ?] _] _]]).
    destruct (has_nul s); cbn [negb andb].
    + split; [by intros [? ?] | by intros [_ ?]].
    + destruct (as_args cmd) as [e|args]; cbn.
      * split; [by intros [? ?]|]. intros [[_ Hs] Hn].
        destruct (proj2 IH (conj Hs Hn)) as [? ?]. done.
      * destruct (proj1 IH) as [Hs Hn]; [by eexists|].
        split; [|by eexists]. intros _. split; [|done].
        split; [by eexists | done].
Qed.

Lemma as_args_inr_map cmd args : as_args cmd = inr args -> cmd = JStr <$> args.
Proof.
  revert args. induction cmd as [|v cmd IH]; intros args; cbn [as_args].
  - by intros [= <-].
  - destruct v as [|b|n|f|s|l|d]; try done.
    destruct (has_nul s); [done|].
    destruct (as_args cmd) as [e|args']; cbn; [done|].
    intros [= <-]. cbn. f_equal. by apply IH.
Qed.

Lemma as_args_inl cmd e :
  as_args cmd = inl e ->
  (e = TypeError /\ ~ Forall is_str cmd)
  \/ (e = ValueError /\ forallb nul_free cmd = false).
Proof.
  induction cmd as [|v cmd IH]; cbn [as_args forallb]; [done|].
  rewrite Forall_cons.
  destruct v as [|b|n|f|s|l|d]; cbn [nul_free];
    try (intros [= <-]; left; split; [done|]; by intros [[? ?] _]).
  destruct (has_nul s); cbn [negb andb].
  - intros [= <-]. by right.
  - destruct (as_args cmd) as [e'|args]; cbn; [|done].
    intros [= <-]. destruct (IH eq_refl) as [[-> Hs]|[-> Hn]].
    + left. split; [done|]. by intros [_ ?].
    + by right.
Qed.

Lemma flag_token_is_str field token config :
  Forall is_str (flag_token field token config).
Proof.
  unfold flag_token.
  destruct (Dict.get field config) as [v|]; [destruct (truthy v)|];
    repeat constructor. by eexists.
Qed.

Lemma is_str_JStr s : is_str (JStr s).
Proof. by exists s. Qed.

End MainMore.

(** X11. What ends the pipeline script early: without the hits file
    it stops at once and changes nothing; with it, the candidate phase
    runs first, and only then is a missing configuration file a
    [sys.exit], a file that does not parse a [JSONDecodeError], and
    JSON that is not an object an [AttributeError]. *)
Theorem main_stops_early `{Platform} (w : world) :
  (fs w !! input_hits_file = None -> main w = (w, SysExit HitsFileNotFound))
  /\ (forall content,
        fs w !! input_hits_file = Some content ->
        let w4 := download_models (Extract.extract content) w in
        (fs w !! config_file_path = None ->
         main w = (w4, SysExit ConfigNotFound))
        /\ (forall text,
              fs w !! config_file_path = Some text ->
              json_load text = None ->
              main w = (w4, Uncaught JSONDecodeError))
        /\ (forall text v,
              fs w !! config_file_path = Some text ->
              json_load text = Some v ->
              (forall config, v <> JDict config) ->
              main w = (w4, Uncaught AttributeError))).
Proof.
  split.
  - intros Hhits. unfold main. by rewrite Hhits.
  - intros content Hhits w4.
    destruct (download_models_keeps_config (Extract.extract content) w
                (extract_NoDup content)) as [Hkeep _]. fold w4 in Hkeep.
    assert (Hmain : main w = validate_build_run w4)
      by (unfold main; by rewrite Hhits).
    rewrite Hmain.
    unfold validate_build_run, mbind, script_bind, bind, validate_seed.
    rewrite Hkeep. split; [|split].
    + by intros ->.
    + intros text -> Hload. by rewrite Hload.
    + intros text v -> Hload Hv. rewrite Hload.
      destruct v; try done. by destruct (Hv d).
Qed.

Lemma main_stops_early_witness :
  let w := Demo.files [("uncharacterized_hits.txt", Demo.hits)] in
  main (H := Demo.platform) w
  = (download_models (H := Demo.platform) (Extract.extract Demo.hits) w,
     SysExit ConfigNotFound).
Proof.
  intros w.
  apply (proj2 (main_stops_early (H := Demo.platform) w) Demo.hits);
    reflexivity.
Defined.


(** X13. Six fields go on the command line as they are.  The command,
    once built, is accepted as an argument list exactly when each of
    them is a JSON string and no token holds a NUL character; the
    arguments are then the tokens themselves.  Otherwise the script
    dies before the tool is started and before the result log is
    opened: of [TypeError] when a field is not a string (a number in
    [active_site], say) and no token holds a NUL, of [ValueError] when
    the six are strings and a token holds a NUL, and of one of the two,
    the first offending token deciding, when both are the case. *)
Theorem raw_fields_must_be_strings `{Platform}
    (config : list (string * json)) (cmd : list json) :
  actseek_command config = inr cmd ->
  let strings :=
    forall k, k ∈ raw_fields -> exists s, Dict.get k config = Some (JStr s) in
  let clean := forallb nul_free cmd = true in
  ((exists args, as_args cmd = inr args) <-> strings /\ clean)
  /\ (forall args, as_args cmd = inr args -> cmd = JStr <$> args)
  /\ (~ strings -> clean ->
      forall w, run_actseek cmd w = (w, Uncaught TypeError))
  /\ (strings -> ~ clean ->
      forall w, run_actseek cmd w = (w, Uncaught ValueError))
  /\ (forall e, as_args cmd = inl e ->
        (e = TypeError \/ e = ValueError)
        /\ forall w, run_actseek cmd w = (w, Uncaught e)).
Proof.
  intros Hcmd strings clean.
  assert (Hstr : Forall is_str cmd <-> strings).
  { unfold strings.
    unfold actseek_command, subscript in Hcmd.
    repeat match type of Hcmd with
           | context [Dict.get ?k config] =>
               let E := fresh "E" in
               destruct (Dict.get k config) eqn:E;
               [cbn [mbind raising_bind] in Hcmd | discriminate Hcmd]
           end.
    rewrite !flag_token_app in Hcmd. injection Hcmd as <-.
    rewrite !Forall_cons, !Forall_app. unfold raw_fields.
    pose proof (flag_token_is_str "delete_protein_files" "-d" config).
    pose proof (flag_token_is_str "KVFinder" "-kv" config).
    pose proof (flag_token_is_str "custom" "-c" config).
    pose proof is_str_JStr. split.
    - intros Hall k Hk.
      repeat (apply elem_of_cons in Hk as [->|Hk];
              [match goal with
               | E : Dict.get ?k config = Some ?v
                 |- context [Dict.get ?k config] =>
                   rewrite E; assert (Hv : is_str v) by tauto;
                   destruct Hv as [s ->]; by exists s
               end|]).
      by apply elem_of_nil in Hk.
    - intros Hraw.
      repeat match goal with
             | E : Dict.get ?k config = Some ?v |- _ =>
                 first [ (assert (Hin : k ∈ [ "active_site"; "selected_active";
                                              "protein_file";
                                              "alphafold_proteins_path";
                                              "seed_protein_file";
                                              "path_results" ]) by in_list);
                         destruct (Hraw k Hin) as [? Hs]; clear Hin;
                         rewrite E in Hs; injection Hs as ->; clear E
                       | clear E ]
             end.
      repeat apply conj; auto using Forall_nil_2. }
  assert (Hdies : forall e, as_args cmd = inl e ->
                    forall w, run_actseek cmd w = (w, Uncaught e)).
  { intros e He w. unfold run_actseek. by rewrite He. }
  split; [|split; [|split; [|split]]].
  - rewrite as_args_inr. by rewrite Hstr.
  - apply as_args_inr_map.
  - intros Hno Hclean. apply Hdies.
    destruct (as_args cmd) as [e|args] eqn:Hargs.
    + destruct (as_args_inl _ _ Hargs) as [[-> _]|[_ Hnul]]; [done|].
      unfold clean in Hclean. congruence.
    + destruct Hno. apply Hstr. apply as_args_inr. by eexists.
  - intros Hyes Hdirty. apply Hdies.
    destruct (as_args cmd) as [e|args] eqn:Hargs.
    + destruct (as_args_inl _ _ Hargs) as [[_ Hns]|[-> _]]; [|done].
      destruct Hns. by apply Hstr.
    + destruct Hdirty. apply as_args_inr. by eexists.
  - intros e He. split; [|by apply Hdies].
    destruct (as_args_inl _ _ He) as [[-> _]|[-> _]]; auto.
Qed.

Lemma raw_fields_must_be_strings_witness :
  let config := Dict.set "active_site" (JInt 5) Demo.full_config in
  let w := Demo.files [("../results/actseek_results.txt", "previous run")] in
  exists cmd,
    actseek_command (H := Demo.platform) config = inr cmd
    /\ run_actseek (H := Demo.platform) cmd w = (w, Uncaught TypeError).
Proof.
  intros config w.
  destruct (actseek_command (H := Demo.platform) config) as [e|cmd] eqn:Hcmd;
    [vm_compute in Hcmd; discriminate Hcmd|].
  exists cmd. split; [reflexivity|].
  destruct (raw_fields_must_be_strings (H := Demo.platform) config cmd Hcmd)
    as (_ & _ & Htype & _).
  vm_compute in Hcmd. injection Hcmd as <-.
  apply Htype; [|reflexivity].
  intros Hstrings.
  destruct (Hstrings "active_site") as [s Hs]; [apply list_elem_of_here|].
  discriminate Hs.
Defined.

(** ** The seed selector as a whole *)

Section SelectorMore.

Context `{Platform}.

Lemma seed_id_file_not_seed name :
  seed_id_file <> seed_structure_path (af_filename name).
Proof. by rewrite seed_structure_path_eq. Qed.

Lemma config_path_not_seed_id : config_path <> seed_id_file.
Proof.
  change config_path with config_file_path.
  by destruct config_file_path_abs as [t ->].
Qed.

(** What STEPS 1 to 4 leave behind when they succeed. *)
Lemma select_seed_done w w4 path :
  select_seed w = (w4, Done path) ->
  exists text,
    fs w !! seed_id_file = Some text
    /\ path = seed_structure_path
                (af_filename (Py.strip (Py.universal_newlines text)))
    /\ is_Some (fs w4 !! path)
    /\ fs w4 !! seed_id_file = Some text
    /\ fs w4 !! config_path = fs w !! config_path.
Proof.
  unfold select_seed.
  destruct (fs w !! seed_id_file) as [text|] eqn:Hid; [|discriminate].
  set (name := af_filename (Py.strip (Py.universal_newlines text))).
  destruct (path_exists (seed_structure_path name) w) eqn:Hex; cbn [negb].
  - intros [= <- <-]. exists text. apply path_exists_true in Hex. done.
  - pose proof (try_download_to_spec false (af_url name)
                  (seed_structure_path name) w) as Hs.
    destruct (try_download_to _ _ _ w) as [w' [e|[|]]];
      [discriminate| |discriminate].
    intros [= <- <-]. destruct Hs as (_ & _ & Hok & _).
    destruct (Hok eq_refl) as (st & body & _ & _ & Hfs).
    exists text. rewrite Hfs. repeat apply conj; try done.
    + rewrite lookup_insert_eq. by eexists.
    + rewrite lookup_insert_ne; [done|].
      apply not_eq_sym, seed_id_file_not_seed.
    + rewrite lookup_insert_ne; [done|].
      apply not_eq_sym, config_path_not_seed.
Qed.

Lemma select_seed_hit w text :
  fs w !! seed_id_file = Some text ->
  let name := af_filename (Py.strip (Py.universal_newlines text)) in
  is_Some (fs w !! seed_structure_path name) ->
  select_seed w = (w, Done (seed_structure_path name)).
Proof.
  intros Hid name Hhit. unfold select_seed. rewrite Hid. fold name.
  apply path_exists_true in Hhit. by rewrite Hhit.
Qed.

Lemma select_seed_not_done w :
  let '(w4, r) := select_seed w in
  (forall path, r <> Done path) -> fs w4 = fs w.
Proof.
  unfold select_seed.
  destruct (fs w !! seed_id_file) as [text|]; [|done].
  set (name := af_filename (Py.strip (Py.universal_newlines text))).
  destruct (path_exists (seed_structure_path name) w); cbn [negb].
  - intros Hno. by destruct (Hno (seed_structure_path name)).
  - pose proof (try_download_to_spec false (af_url name)
                  (seed_structure_path name) w) as Hs.
    destruct (try_download_to _ _ _ w) as [w' [e|[|]]];
      destruct Hs as (_ & _ & _ & Hko & _).
    + intros _. by apply Hko.
    + intros Hno. by destruct (Hno (seed_structure_path name)).
    + intros _. by apply Hko.
Qed.

Lemma rewrite_config_spec seed_path w :
  let '(w', r) := rewrite_config seed_path w in
  requests w' = requests w
  /\ (r <> Done tt -> w' = w)
  /\ (r = Done tt ->
      exists text, w' = write_file config_path text w).
Proof.
  unfold rewrite_config.
  destruct (fs w !! config_path) as [ctext|]; [|done].
  destruct (json_load ctext) as [config|]; [|done].
  destruct (update_config config seed_path) as [e|config']; [done|].
  repeat apply conj; [done|done|]. intros _. by eexists.
Qed.

Lemma all_chars_app P s t :
  all_chars P (s +:+ t) = all_chars P s && all_chars P t.
Proof.
  induction s as [|c s IH]; [done|]. cbn. by rewrite IH, andb_assoc.
Qed.

Lemma split_no_sep sep s :
  all_chars (not_char sep) s = true -> Py.split sep s = [s].
Proof.
  induction s as [|c s IH]; [done|]. cbn [all_chars].
  intros [Hc Hs]%andb_true_iff. cbn [Py.split].
  unfold not_char in Hc. apply negb_true_iff in Hc. rewrite Hc.
  by rewrite IH.
Qed.

End SelectorMore.

(** X14. The selector changes the configuration file only when it
    succeeds: however else it ends (no accession on record, download
    refused, configuration missing, unreadable or not an object), the
    file is as it was. *)
Theorem selector_failure_keeps_config `{Platform} (w : world) :
  let '(w', r) := seed_selector w in
  r <> Done tt -> fs w' !! config_path = fs w !! config_path.
Proof.
  unfold seed_selector, mbind, script_bind, bind.
  pose proof (select_seed_not_done w) as Hfail.
  destruct (select_seed w) as [w4 [path| |]] eqn:Hsel.
  - apply select_seed_done in Hsel as (text & _ & _ & _ & _ & Hcfg).
    pose proof (rewrite_config_spec path w4) as Hs.
    destruct (rewrite_config path w4) as [w' r].
    destruct Hs as (_ & Hsame & _). intros Hr. by rewrite (Hsame Hr).
  - intros _. by rewrite Hfail.
  - intros _. by rewrite Hfail.
Qed.

Lemma selector_failure_keeps_config_witness :
  let w := Demo.files
             [("query_seed_accession.txt", "Q9XYZ1" +:+ nl);
              ("/home/max/pipeline/config.json", "not json")] in
  fs (seed_selector (H := Demo.platform) w).1
    !! "/home/max/pipeline/config.json"
  = Some "not json".
Proof.
  intros w.
  pose proof (selector_failure_keeps_config (H := Demo.platform) w) as Hs.
  destruct (seed_selector (H := Demo.platform) w) as [w' r] eqn:Hrun.
  cbn [fst]. etransitivity; [apply Hs|reflexivity].
  vm_compute in Hrun. injection Hrun as _ <-. discriminate.
Defined.

(** X15. After a successful run the structure file the configuration
    now names is on disk, and running the selector again makes no
    request. *)
Theorem selector_success_leaves_seed `{Platform} (w w' : world) :
  seed_selector w = (w', Done tt) ->
  exists text,
    fs w !! seed_id_file = Some text
    /\ is_Some (fs w' !! seed_structure_path
                           (af_filename
                              (Py.strip (Py.universal_newlines text))))
    /\ requests (seed_selector w').1 = requests w'.
Proof.
  unfold seed_selector at 1. unfold mbind, script_bind, bind.
  destruct (select_seed w) as [w4 [path| |]] eqn:Hsel; [|discriminate..].
  apply select_seed_done in Hsel as (text & Hid & -> & Hfile & Hid4 & _).
  set (name := af_filename (Py.strip (Py.universal_newlines text))) in *.
  intros Hrw. pose proof (rewrite_config_spec (seed_structure_path name) w4)
    as Hs.
  rewrite Hrw in Hs. destruct Hs as (_ & _ & Hdone).
  destruct (Hdone eq_refl) as (ctext & ->).
  set (w' := write_file config_path ctext w4).
  assert (Hfile' : is_Some (fs w' !! seed_structure_path name)).
  { unfold w'. cbn [fs write_file].
    by rewrite lookup_insert_ne by apply config_path_not_seed. }
  assert (Hid' : fs w' !! seed_id_file = Some text).
  { unfold w'. cbn [fs write_file].
    by rewrite lookup_insert_ne by apply config_path_not_seed_id. }
  exists text. split; [done|]. split; [done|].
  unfold seed_selector, mbind, script_bind, bind.
  rewrite (select_seed_hit w' text Hid' Hfile'). fold name.
  pose proof (rewrite_config_spec (seed_structure_path name) w') as Hs.
  destruct (rewrite_config (seed_structure_path name) w') as [w6 r6].
  destruct Hs as [Hreq _]. exact Hreq.
Qed.

Lemma selector_success_leaves_seed_witness :
  let w := Demo.files
             [("query_seed_accession.txt", "Q9XYZ1" +:+ nl);
              ("/home/max/pipeline/config.json", "FULL")] in
  let w' := (seed_selector (H := Demo.platform) w).1 in
  is_Some (fs w' !! "../structures/AF-Q9XYZ1-F1-model_v4.pdb")
  /\ requests (seed_selector (H := Demo.platform) w').1 = requests w'.
Proof.
  intros w w'.
  destruct (selector_success_leaves_seed (H := Demo.platform) w w')
    as (text & Hid & Hfile & Hreq).
  - reflexivity.
  - injection Hid as <-. split; [exact Hfile | exact Hreq].
Defined.

(** X16. The two scripts agree on the seed: from the path the selector
    writes into the configuration, the pipeline recovers the selector's
    file name, and so asks the server for the same URL, as long as the
    accession has no slash in it. *)
Theorem seed_filename_round_trip `{Platform} (accession : string) :
  all_chars (not_char "/"%char) accession = true ->
  basename (seed_structure_path (af_filename accession))
  = af_filename accession
  /\ af_url (basename (seed_structure_path (af_filename accession)))
     = af_url (af_filename accession).
Proof.
  intros Hno.
  assert (Hbase : basename (seed_structure_path (af_filename accession))
                  = af_filename accession).
  { rewrite seed_structure_path_eq. unfold basename, af_filename.
    assert (Hsplit : Py.split "/"%char (accession +:+ "-F1-model_v4.pdb")
                     = [accession +:+ "-F1-model_v4.pdb"]).
    { apply split_no_sep. by rewrite all_chars_app, Hno. }
    cbn [String.append Py.split Ascii.eqb Bool.eqb].
    by rewrite Hsplit. }
  split; [done|]. by rewrite Hbase.
Qed.

Lemma seed_filename_round_trip_witness :
  basename "../structures/AF-Q9XYZ1-F1-model_v4.pdb"
  = "AF-Q9XYZ1-F1-model_v4.pdb".
Proof.
  apply (seed_filename_round_trip (H := Demo.platform) "Q9XYZ1").
  reflexivity.
Defined.
